(** * Attachment lifecycle of the school-website API

    A shallow embedding of the two server entry points of the repository:

    - the local-disk server ([src/index.js]): multer disk storage,
      [getLocalFileUrl], [deleteLocalFile] and the route handlers;
    - the object-store server (the second server file, which imports
      [@supabase/supabase-js]): [uploadToSupabase], [deleteFromSupabase]
      and the route handlers.

    Handlers are written in an error/state monad in the order of the
    source statements.  The state holds one Prisma table, the blob store
    (the directory below [__dirname], or the storage bucket) and the trace
    of calls issued to the two collaborators. *)

From Stdlib Require Import ZArith Lia Ascii String.
From stdpp Require Import gmap strings list fin_maps pretty.

Open Scope string_scope.
Open Scope Z_scope.

(** ** JavaScript values that flow through the image slot *)

(** What [error] can be bound to in a [catch] clause. *)
Inductive Exn : Type :=
| JsError (message : string)      (* throw new Error(message) *)
| ReferenceError (name : string)  (* use of an identifier never declared *)
| ErrnoError (code : string)      (* rejection of an fs call, [error.code] *)
| PrismaNotFound                  (* update/delete of a row that is absent *)
| PrismaFailure.                  (* any other rejection of a Prisma call *)

(** [error.code]: only filesystem errors carry one. *)
Definition error_code (e : Exn) : option string :=
  match e with
  | ErrnoError c => Some c
  | _ => None
  end.

(** The value of an image expression: [undefined], [null] or a string. *)
Inductive JsVal : Type :=
| JsUndefined
| JsNull
| JsStr (s : string).

(** A nullable text column read back from the database. *)
Definition of_column (c : option string) : JsVal :=
  match c with
  | None => JsNull
  | Some s => JsStr s
  end.

(** ToBoolean: [undefined], [null] and the empty string are falsy. *)
Definition truthy (v : JsVal) : bool :=
  match v with
  | JsStr s => negb (String.eqb s "")
  | _ => false
  end.

(** [a || b] *)
Definition js_or (a b : JsVal) : JsVal := if truthy a then a else b.

(** *** [parseInt] on a route parameter

    Leading white space is skipped, an optional sign is read, a [0x]/[0X]
    prefix selects radix 16, and the longest run of digits is converted;
    no digit at all gives NaN ([None]).  Only ASCII white space is
    recognised and the result is an exact integer: JavaScript's result is
    a double, which is the same number up to [2^53]. *)

Definition is_space (a : ascii) : bool :=
  let n := nat_of_ascii a in
  ((9 <=? n) && (n <=? 13))%nat || (n =? 32)%nat.

Definition digit_value (radix : Z) (a : ascii) : option Z :=
  let n := Z.of_nat (nat_of_ascii a) in
  let v :=
    if (48 <=? n) && (n <=? 57) then Some (n - 48)
    else if (97 <=? n) && (n <=? 122) then Some (n - 87)
    else if (65 <=? n) && (n <=? 90) then Some (n - 55)
    else None in
  match v with
  | Some d => if d <? radix then Some d else None
  | None => None
  end.

Fixpoint skip_space (s : string) : string :=
  match s with
  | String a s' => if is_space a then skip_space s' else s
  | EmptyString => s
  end.

(** Longest digit prefix, accumulated left to right; [None] until a digit
    has been read. *)
Fixpoint read_digits (radix : Z) (acc : option Z) (s : string) : option Z :=
  match s with
  | String a s' =>
      match digit_value radix a with
      | Some d => read_digits radix (Some (default 0 acc * radix + d)) s'
      | None => acc
      end
  | EmptyString => acc
  end.

Definition read_unsigned (s : string) : option Z :=
  match s with
  | String "0" (String "x" s') => read_digits 16 None s'
  | String "0" (String "X" s') => read_digits 16 None s'
  | _ => read_digits 10 None s
  end.

Definition parseInt (s : string) : option Z :=
  match skip_space s with
  | String "-" s' => Z.opp <$> read_unsigned s'
  | String "+" s' => read_unsigned s'
  | s' => read_unsigned s'
  end.

(** [s.replace(/^\//, '')]: drop one leading slash. *)
Definition strip_leading_slash (s : string) : string :=
  match s with
  | String "/" s' => s'
  | _ => s
  end.

Fixpoint string_drop (n : nat) (s : string) : string :=
  match n, s with
  | S n', String _ s' => string_drop n' s'
  | _, _ => s
  end.

(** [s.replace(pat, '')] with a string pattern: the first occurrence of
    [pat] is removed, wherever it starts. *)
Fixpoint remove_first (pat s : string) : string :=
  if String.prefix pat s then string_drop (String.length pat) s
  else
    match s with
    | String a s' => String a (remove_first pat s')
    | EmptyString => EmptyString
    end.

(** *** URLs made by the storage client

    Text stands for the sequence of its UTF-8 bytes. *)

(** The characters [encodeURI] leaves as they are: letters, digits and
    [;,/?:@&=+$-_.!~*'()#]. *)
Definition uri_kept (a : ascii) : bool :=
  let n := nat_of_ascii a in
  ((65 <=? n) && (n <=? 90) || (97 <=? n) && (n <=? 122)
   || (48 <=? n) && (n <=? 57))%nat
  || existsb (Ascii.eqb a) (list_ascii_of_string ";,/?:@&=+$-_.!~*'()#").

(** The upper-case hexadecimal digit of four bits, lowest first. *)
Definition hex_digit (b0 b1 b2 b3 : bool) : ascii :=
  let n :=
    (Nat.b2n b0 + 2 * Nat.b2n b1 + 4 * Nat.b2n b2 + 8 * Nat.b2n b3)%nat in
  ascii_of_nat (if (n <? 10)%nat then 48 + n else 55 + n).

(** [%XX] for one byte. *)
Definition percent_encoded (a : ascii) : string :=
  match a with
  | Ascii b0 b1 b2 b3 b4 b5 b6 b7 =>
      String "%" (String (hex_digit b4 b5 b6 b7)
                    (String (hex_digit b0 b1 b2 b3) EmptyString))
  end.

(** [encodeURI(s)]: every byte of a character that is not kept is
    escaped. *)
Fixpoint encodeURI (s : string) : string :=
  match s with
  | EmptyString => EmptyString
  | String a s' =>
      if uri_kept a then String a (encodeURI s')
      else percent_encoded a ++ encodeURI s'
  end.

(** The text holds only characters that [encodeURI] keeps. *)
Fixpoint uri_safe (s : string) : bool :=
  match s with
  | EmptyString => true
  | String a s' => uri_kept a && uri_safe s'
  end.

(** [url.replace(/\/$/, '')], as [createClient] applies it to the project
    URL: one slash at the very end is dropped. *)
Fixpoint strip_trailing_slash (s : string) : string :=
  match s with
  | EmptyString => EmptyString
  | String a s' =>
      if Ascii.eqb a "/" && String.eqb s' "" then EmptyString
      else String a (strip_trailing_slash s')
  end.

(** A project URL that the storage client spells back unchanged: only
    kept characters and no slash at the end. *)
Definition plain_url (url : string) : bool :=
  uri_safe url && String.eqb (strip_trailing_slash url) url.

(** ** The world a request runs in *)

(** Calls issued to the database and to the blob store, in program order
    (attempts: a call is recorded whether or not it succeeds). *)
Inductive Call : Type :=
| CallFindUnique (id : option Z)
| CallCreate
| CallUpdate (id : option Z)
| CallDelete (id : option Z)
| CallWriteFile (path : string)   (* multer disk storage *)
| CallUnlink (path : string)      (* fs.unlink *)
| CallUpload (key : string)       (* storage.from(bucket).upload *)
| CallRemove (key : string).      (* storage.from(bucket).remove *)

(** A row of an entity with one file-backed column; [F] collects the
    entity's scalar columns. *)
Record Row (F : Type) : Type := mkRow {
  row_fields : F;
  row_image : option string }.
Arguments mkRow {F} _ _.
Arguments row_fields {F} _.
Arguments row_image {F} _.

(** One Prisma table (rows of type [R] by primary key, with the next value
    of its id sequence), the blobs of the storage backend by path or key,
    and the calls made so far. *)
Record World (R : Type) : Type := mkWorld {
  table : gmap Z R;
  next_id : Z;
  blobs : gmap string (list Byte.byte);
  calls : list Call }.
Arguments mkWorld {R} _ _ _ _.
Arguments table {R} _.
Arguments next_id {R} _.
Arguments blobs {R} _.
Arguments calls {R} _.

(** What the request cannot control: the clock and whether a collaborator
    rejects a call for a reason of its own (connectivity, validation of a
    column, quota, permissions).  A handler makes at most one call of each
    kind, so one flag per kind is enough. *)
Record Oracle : Type := mkOracle {
  clock : N;            (* Date.now() *)
  find_fails : bool;    (* findUnique rejects *)
  write_fails : bool;   (* create / update / delete of the row rejects *)
  put_fails : bool;     (* the store refuses the new blob *)
  del_fails : bool }.   (* removing a blob fails, other than by absence *)

Definition calm (now : N) : Oracle := mkOracle now false false false false.

(** *** Error/state monad of an async handler body *)

Definition M (R A : Type) : Type := Oracle -> World R -> World R * (Exn + A).

Section Monad.
Context {R : Type}.

Definition ret {A} (a : A) : M R A := fun _ w => (w, inr a).

Definition bind {A B} (m : M R A) (k : A -> M R B) : M R B :=
  fun o w =>
    match m o w with
    | (w', inr a) => k a o w'
    | (w', inl e) => (w', inl e)
    end.

Definition throw {A} (e : Exn) : M R A := fun _ w => (w, inl e).

(** [try { m } catch (error) { h error }] *)
Definition try_catch {A} (m : M R A) (h : Exn -> M R A) : M R A :=
  fun o w =>
    match m o w with
    | (w', inl e) => h e o w'
    | r => r
    end.

Definition ask : M R Oracle := fun o w => (w, inr o).
Definition get : M R (World R) := fun _ w => (w, inr w).

Definition record (c : Call) : M R unit :=
  fun _ w => (mkWorld (table w) (next_id w) (blobs w) (calls w ++ [c]), inr tt).

Definition set_table (t : gmap Z R) : M R unit :=
  fun _ w => (mkWorld t (next_id w) (blobs w) (calls w), inr tt).

Definition set_blobs (b : gmap string (list Byte.byte)) : M R unit :=
  fun _ w => (mkWorld (table w) (next_id w) b (calls w), inr tt).

Definition bump_id : M R unit :=
  fun _ w => (mkWorld (table w) (next_id w + 1) (blobs w) (calls w), inr tt).
End Monad.

Declare Scope handler_scope.
Delimit Scope handler_scope with handler.
Notation "x <- m ;; k" := (bind m (fun x => k))
  (at level 100, m at next level, right associativity) : handler_scope.
Notation "m ;; k" := (bind m (fun _ => k))
  (at level 100, right associativity) : handler_scope.
Open Scope handler_scope.

(** *** Prisma client (collaborator)

    [findUnique] yields the row or [null]; [update] and [delete] reject
    when no row has the id; an id that is NaN is rejected by validation. *)
Section Prisma.
Context {R : Type}.

Definition findUnique (id : option Z) : M R (option (Z * R)) :=
  record (CallFindUnique id) ;;
  o <- ask ;;
  w <- get ;;
  if find_fails o then throw PrismaFailure
  else match id with
       | None => throw PrismaFailure
       | Some n => ret (pair n <$> table w !! n)
       end.

Definition create (data : R) : M R (Z * R) :=
  record CallCreate ;;
  o <- ask ;;
  w <- get ;;
  if write_fails o then throw PrismaFailure
  else match table w !! next_id w with
       | Some _ => throw PrismaFailure
       | None =>
           set_table (<[next_id w := data]> (table w)) ;;
           bump_id ;;
           ret (next_id w, data)
       end.

Definition update (id : option Z) (data : R -> R) : M R (Z * R) :=
  record (CallUpdate id) ;;
  o <- ask ;;
  w <- get ;;
  if write_fails o then throw PrismaFailure
  else match id with
       | None => throw PrismaFailure
       | Some n =>
           match table w !! n with
           | None => throw PrismaNotFound
           | Some r =>
               set_table (<[n := data r]> (table w)) ;;
               ret (n, data r)
           end
       end.

Definition delete_row (id : option Z) : M R (Z * R) :=
  record (CallDelete id) ;;
  o <- ask ;;
  w <- get ;;
  if write_fails o then throw PrismaFailure
  else match id with
       | None => throw PrismaFailure
       | Some n =>
           match table w !! n with
           | None => throw PrismaNotFound
           | Some r =>
               set_table (delete n (table w)) ;;
               ret (n, r)
           end
       end.
End Prisma.

(** The [data] argument of create/update for a row with an image column:
    [undefined] leaves the column as it is, [null] clears it. *)
Definition write_image (image : JsVal) (old : option string) : option string :=
  match image with
  | JsUndefined => old
  | JsNull => None
  | JsStr s => Some s
  end.

Definition new_row {F} (fields : F) (image : JsVal) : Row F :=
  mkRow fields (write_image image None).

Definition set_row {F} (fields : F) (image : JsVal) (r : Row F) : Row F :=
  mkRow fields (write_image image (row_image r)).

(** *** Blob stores (collaborators) *)
Section Stores.
Context {R : Type}.

(** [fs.unlink]: ENOENT when the path is absent. *)
Definition fs_unlink (path : string) : M R unit :=
  record (CallUnlink path) ;;
  o <- ask ;;
  w <- get ;;
  if del_fails o then throw (ErrnoError "EACCES")
  else match blobs w !! path with
       | None => throw (ErrnoError "ENOENT")
       | Some _ => set_blobs (delete path (blobs w))
       end.

(** The write of multer's disk storage. *)
Definition fs_write (path : string) (bytes : list Byte.byte) : M R unit :=
  record (CallWriteFile path) ;;
  o <- ask ;;
  w <- get ;;
  if put_fails o then throw (ErrnoError "ENOSPC")
  else set_blobs (<[path := bytes]> (blobs w)).

(** [storage.from(bucket).upload(key, bytes)] without upsert: the result
    carries an error when the service refuses or when the key is taken. *)
Definition storage_upload (key : string) (bytes : list Byte.byte)
  : M R (option string) :=
  record (CallUpload key) ;;
  o <- ask ;;
  w <- get ;;
  if put_fails o then ret (Some "upload failed")
  else match blobs w !! key with
       | Some _ => ret (Some "The resource already exists")
       | None => set_blobs (<[key := bytes]> (blobs w)) ;; ret None
       end.

(** [storage.from(bucket).remove([key])]: removing an absent key is not
    an error. *)
Definition storage_remove (key : string) : M R (option string) :=
  record (CallRemove key) ;;
  o <- ask ;;
  w <- get ;;
  if del_fails o then ret (Some "remove failed")
  else set_blobs (delete key (blobs w)) ;; ret None.
End Stores.

(** [`${Date.now()}-${file.originalname}`], the name under which both
    servers store an upload. *)
Definition stamped (now : N) (originalname : string) : string :=
  pretty now ++ "-" ++ originalname.

(** ** Requests and responses *)

(** A multipart file part as multer receives it. *)
Record Upload : Type := mkUpload {
  originalname : string;
  mimetype : string;
  buffer : list Byte.byte }.

Inductive Body (R : Type) : Type :=
| JsonRecord (id : Z) (r : R)
| JsonNull
| JsonError (error : string) (details : option Exn)  (* details: error.message *)
| Text (s : string)
| NoBody.
Arguments JsonRecord {R} _ _.
Arguments JsonNull {R}.
Arguments JsonError {R} _ _.
Arguments Text {R} _.
Arguments NoBody {R}.

Record Response (R : Type) : Type := mkResponse {
  status : Z;
  body : Body R }.
Arguments mkResponse {R} _ _.
Arguments status {R} _.
Arguments body {R} _.

(** What the client gets from a route: the response the handler sent, or
    nothing from the handler because an error escaped it (the promise of
    the async handler rejects, or the upload middleware gave up). *)
Inductive Outcome (R : Type) : Type :=
| Sent (r : Response R)
| Escaped (e : Exn).
Arguments Sent {R} _.
Arguments Escaped {R} _.

Definition run {R} (h : M R (Response R)) (o : Oracle) (w : World R)
  : World R * Outcome R :=
  match h o w with
  | (w', inr r) => (w', Sent r)
  | (w', inl e) => (w', Escaped e)
  end.

Definition json {R} (b : Body R) : Response R := mkResponse 200 b.

(** [if (row.image) { await k(row.image) }] *)
Definition when_image {R} (image : option string) (k : string -> M R unit)
  : M R unit :=
  match image with
  | Some ref => if truthy (JsStr ref) then k ref else ret tt
  | None => ret tt
  end.

(** [GET /api/<entity>/:id], the same in both servers: no lookup guard and
    no [try]. *)
Definition get_by_id {R} (id : string) : M R (Response R) :=
  item <- findUnique (parseInt id) ;;
  ret (json (match item with
             | Some (n, r) => JsonRecord n r
             | None => JsonNull
             end)).

(** Scalar columns of the entities used below. *)
Record NewsFields : Type := mkNews {
  title : string;
  description : string;
  publishedAt : string }.

Record AnnouncementFields : Type := mkAnnouncement {
  a_title : string;
  a_description : string;
  publishedDate : string }.

Record PersonFields : Type := mkPerson {
  name : string;
  role : string }.

Record HeadmasterFields : Type := mkHeadmaster {
  message : string;
  hm_description : string;
  headmasterName : string }.

(** Bodies of the routes that answer with something else than a row. *)
Inductive Reply (R : Type) : Type :=
| Plain (b : Body R)
| JsonMessage (message : string)   (* { message } *)
| JsonToken (token : string).      (* { token } *)
Arguments Plain {R} _.
Arguments JsonMessage {R} _.
Arguments JsonToken {R} _.

Record Answer (R : Type) : Type := mkAnswer {
  answer_status : Z;
  answer_body : Reply R }.
Arguments mkAnswer {R} _ _.
Arguments answer_status {R} _.
Arguments answer_body {R} _.

(** [POST /api/contacts], the same in both servers. *)
Definition post_contact {R} (data : R) : M R (Response R) :=
  try_catch
    (newContact <- create data ;;
     ret (mkResponse 201 (JsonRecord newContact.1 newContact.2)))
    (fun error =>
       ret (mkResponse 500 (JsonError "Failed to create contact message" None))).

(** [DELETE /api/contacts/:id], the same in both servers: the [catch]
    answers 404 for every failure. *)
Definition delete_contact {R} (id : string) : M R (Response R) :=
  try_catch
    (deletedContact <- delete_row (parseInt id) ;;
     ret (mkResponse 200 (JsonRecord deletedContact.1 deletedContact.2)))
    (fun error =>
       ret (mkResponse 404
              (JsonError "Contact not found or failed to delete" None))).

(** ** The local-disk server ([src/index.js]) *)
Module Local.

(** [req.file] after multer's disk storage. *)
Record DiskFile : Type := mkDiskFile {
  filename : string;
  file_originalname : string }.

Definition getLocalFileUrl (filename : string) : string :=
  "/uploads/" ++ filename.

Section Handlers.
Context {F : Type}.
Local Notation "'R'" := (Row F) (only parsing).

(** [upload.single(field)] with the disk storage of lines 26-39: the
    part, when present, is written below [uploads/] under
    [Date.now()-originalname] before the handler runs.  Paths are
    relative to [__dirname] and taken literally. *)
Definition upload_single (part : option Upload) : M R (option DiskFile) :=
  match part with
  | None => ret None
  | Some file =>
      o <- ask ;;
      let filename := stamped (clock o) (originalname file) in
      fs_write ("uploads/" ++ filename) (buffer file) ;;
      ret (Some (mkDiskFile filename (originalname file)))
  end.

(** [path.join(__dirname, p)] is the path [p] below [__dirname]. *)
Definition deleteLocalFile (filePath : string) : M R unit :=
  try_catch
    (let fullPath := strip_leading_slash filePath in
     fs_unlink fullPath)
    (fun error =>
       if negb (bool_decide (error_code error = Some "ENOENT"))
       then throw (JsError "Failed to delete local file")
       else ret tt).

(** [POST /api/news] and the routes of the same text (extracurriculars,
    alumni, galeri, sarana). *)
Definition post_image (failed : string)
    (fields : F) (file : option DiskFile) : M R (Response R) :=
  try_catch
    (let image := match file with
                  | Some f => JsStr (getLocalFileUrl (filename f))
                  | None => JsNull
                  end in
     created <- create (new_row fields image) ;;
     ret (json (JsonRecord created.1 created.2)))
    (fun error => ret (mkResponse 500 (JsonError failed (Some error)))).

(** [PUT /api/news/:id] and the routes of the same text (hero,
    extracurriculars, alumni, sarana). *)
Definition put_image (not_found failed : string)
    (id : string) (fields : F) (file : option DiskFile) : M R (Response R) :=
  try_catch
    (existing <- findUnique (parseInt id) ;;
     match existing with
     | None => ret (mkResponse 404 (JsonError not_found None))
     | Some (_, existing) =>
         newImage <-
           match file with
           | Some f =>
               let newImage := JsStr (getLocalFileUrl (filename f)) in
               when_image (row_image existing) deleteLocalFile ;;
               ret newImage
           | None => ret JsNull
           end ;;
         updated <- update (parseInt id)
                      (set_row fields
                         (js_or newImage (of_column (row_image existing)))) ;;
         ret (json (JsonRecord updated.1 updated.2))
     end)
    (fun error => ret (mkResponse 500 (JsonError failed (Some error)))).

(** [DELETE /api/news/:id] and the routes of the same text. *)
Definition delete_image (not_found failed : string)
    (id : string) : M R (Response R) :=
  try_catch
    (existing <- findUnique (parseInt id) ;;
     match existing with
     | None => ret (mkResponse 404 (JsonError not_found None))
     | Some (_, existing) =>
         when_image (row_image existing) deleteLocalFile ;;
         delete_row (parseInt id) ;;
         ret (mkResponse 204 NoBody)
     end)
    (fun error => ret (mkResponse 500 (JsonError failed (Some error)))).

(** The whole route: multer first, then the handler. *)
Definition route (part : option Upload)
    (handler : option DiskFile -> M R (Response R)) : M R (Response R) :=
  file <- upload_single part ;;
  handler file.

(** A call of [name], which [index.js] neither defines nor imports:
    evaluating the identifier throws. *)
Definition undeclared {A} (name : string) : M R A :=
  throw (ReferenceError name).

(** [POST /api/strukturOrganisasi] (lines 954-971); the upload is
    outside the [try]. *)
Definition post_strukturOrganisasi
    (fields : F) (file : option DiskFile) : M R (Response R) :=
  image <- match file with
           | Some f => undeclared "uploadToSupabase"
           | None => ret JsNull
           end ;;
  try_catch
    (newPerson <- create (new_row fields image) ;;
     ret (json (JsonRecord newPerson.1 newPerson.2)))
    (fun error =>
       ret (mkResponse 500
              (JsonError "Failed to create struktur organisasi" None))).

(** [PUT /api/strukturOrganisasi/:id] (lines 974-1010). *)
Definition put_strukturOrganisasi
    (id : string) (fields : F) (file : option DiskFile) : M R (Response R) :=
  try_catch
    (existing <- findUnique (parseInt id) ;;
     match existing with
     | None =>
         ret (mkResponse 404 (JsonError "Struktur Organisasi not found" None))
     | Some (_, existingPerson) =>
         newImage <-
           match file with
           | Some f =>
               newImage <- undeclared "uploadToSupabase" ;;
               when_image (row_image existingPerson)
                 (fun _ => undeclared "deleteFromSupabase") ;;
               ret newImage
           | None => ret JsNull
           end ;;
         updated <- update (parseInt id)
                      (set_row fields
                         (js_or newImage
                            (of_column (row_image existingPerson)))) ;;
         ret (json (JsonRecord updated.1 updated.2))
     end)
    (fun error =>
       ret (mkResponse 500
              (JsonError "Failed to update struktur organisasi" None))).

(** [DELETE /api/strukturOrganisasi/:id] (lines 1013-1044). *)
Definition delete_strukturOrganisasi (id : string) : M R (Response R) :=
  let parsedId := parseInt id in
  match parsedId with
  | None => ret (mkResponse 400 (JsonError "Invalid ID" None))
  | Some _ =>
      try_catch
        (existing <- findUnique parsedId ;;
         match existing with
         | None =>
             ret (mkResponse 404
                    (JsonError "Struktur Organisasi not found" None))
         | Some (_, existingPerson) =>
             when_image (row_image existingPerson)
               (fun _ => undeclared "deleteFromSupabase") ;;
             delete_row parsedId ;;
             ret (mkResponse 204 NoBody)
         end)
        (fun error =>
           ret (mkResponse 500 (Text "Error deleting struktur organisasi")))
  end.

(** [POST /api/staffandteachers] (lines 1047-1064). *)
Definition post_staffandteachers
    (fields : F) (file : option DiskFile) : M R (Response R) :=
  image <- match file with
           | Some f => undeclared "uploadToSupabase"
           | None => ret JsNull
           end ;;
  try_catch
    (created <- create (new_row fields image) ;;
     ret (mkResponse 201 (JsonRecord created.1 created.2)))
    (fun error =>
       ret (mkResponse 500
              (JsonError "Failed to create staff or teacher" None))).

(** [PUT /api/staffandteachers/:id] (lines 1082-1123). *)
Definition put_staffandteachers
    (id : string) (fields : F) (file : option DiskFile) : M R (Response R) :=
  try_catch
    (existing <- findUnique (parseInt id) ;;
     match existing with
     | None =>
         ret (mkResponse 404 (JsonError "Staff or teacher not found" None))
     | Some (_, existing) =>
         newImage <-
           match file with
           | Some f =>
               newImage <- undeclared "uploadToSupabase" ;;
               when_image (row_image existing)
                 (fun _ => undeclared "deleteFromSupabase") ;;
               ret newImage
           | None => ret (of_column (row_image existing))
           end ;;
         updated <- update (parseInt id) (set_row fields newImage) ;;
         ret (json (JsonRecord updated.1 updated.2))
     end)
    (fun error =>
       ret (mkResponse 500
              (JsonError "Failed to update staff or teacher" None))).

(** [DELETE /api/staffandteachers/:id] (lines 1126-1154). *)
Definition delete_staffandteachers (id : string) : M R (Response R) :=
  try_catch
    (existing <- findUnique (parseInt id) ;;
     match existing with
     | None =>
         ret (mkResponse 404 (JsonError "Staff or teacher not found" None))
     | Some (_, existing) =>
         when_image (row_image existing)
           (fun _ => undeclared "deleteFromSupabase") ;;
         delete_row (parseInt id) ;;
         ret (mkResponse 204 NoBody)
     end)
    (fun error =>
       ret (mkResponse 500
              (JsonError "Failed to delete staff or teacher" None))).

(** [PUT /api/galeri/:id] (lines 590-626) and [PUT /api/kalender/:id]
    (lines 412-447): the new value starts as the stored one. *)
Definition put_image_let (not_found failed : string)
    (id : string) (fields : F) (file : option DiskFile) : M R (Response R) :=
  try_catch
    (existing <- findUnique (parseInt id) ;;
     match existing with
     | None => ret (mkResponse 404 (JsonError not_found None))
     | Some (_, existing) =>
         newImage <-
           match file with
           | Some f =>
               let newImage := JsStr (getLocalFileUrl (filename f)) in
               when_image (row_image existing) deleteLocalFile ;;
               ret newImage
           | None => ret (of_column (row_image existing))
           end ;;
         updated <- update (parseInt id) (set_row fields newImage) ;;
         ret (json (JsonRecord updated.1 updated.2))
     end)
    (fun error => ret (mkResponse 500 (JsonError failed (Some error)))).

(** [POST /api/sejarah] (lines 810-820); no [try]. *)
Definition post_sejarah (fields : F) (file : option DiskFile)
  : M R (Response R) :=
  let imageUrl := match file with
                  | Some f => JsStr (getLocalFileUrl (filename f))
                  | None => JsNull
                  end in
  newSejarah <- create (new_row fields imageUrl) ;;
  ret (json (JsonRecord newSejarah.1 newSejarah.2)).

(** [PUT /api/sejarah/:id] (lines 823-844); no [try]. *)
Definition put_sejarah (id : string) (fields : F) (file : option DiskFile)
  : M R (Response R) :=
  existing <- findUnique (parseInt id) ;;
  match existing with
  | None => ret (mkResponse 404 (JsonError "Sejarah not found" None))
  | Some (_, existingSejarah) =>
      imageUrl <-
        match file with
        | Some f =>
            let imageUrl := JsStr (getLocalFileUrl (filename f)) in
            when_image (row_image existingSejarah) deleteLocalFile ;;
            ret imageUrl
        | None => ret (of_column (row_image existingSejarah))
        end ;;
      updated <- update (parseInt id) (set_row fields imageUrl) ;;
      ret (json (JsonRecord updated.1 updated.2))
  end.

(** [DELETE /api/sejarah/:id] (lines 847-863); no [try]. *)
Definition delete_sejarah (id : string) : M R (Answer R) :=
  existing <- findUnique (parseInt id) ;;
  match existing with
  | None =>
      ret (mkAnswer 404 (Plain (JsonError "Sejarah not found" None)))
  | Some (_, existingSejarah) =>
      when_image (row_image existingSejarah) deleteLocalFile ;;
      delete_row (parseInt id) ;;
      ret (mkAnswer 200 (JsonMessage "Slide sejarah berhasil dihapus"))
  end.
End Handlers.

Definition post_news := @post_image NewsFields "Failed to create news".
Definition put_news :=
  @put_image NewsFields "News not found" "Failed to update news".
Definition delete_news :=
  @delete_image NewsFields "News not found" "Failed to delete news".
Definition get_news_by_id := @get_by_id (Row NewsFields).

End Local.

(** ** The object-store server (the file that imports supabase-js) *)
Module Supabase.

Definition BUCKET_NAME : string := "uploads".

Section Handlers.
(** [process.env.SUPABASE_URL] *)
Variable SUPABASE_URL : string.
Context {F : Type}.
Local Notation "'R'" := (Row F) (only parsing).

(** Prefix of every public URL of the bucket, as [deleteFromSupabase]
    spells it. *)
Definition public_prefix : string :=
  SUPABASE_URL ++ "/storage/v1/object/public/" ++ BUCKET_NAME ++ "/".

(** The base of the storage client: [createClient] drops a trailing slash
    of the project URL and appends [/storage/v1]. *)
Definition storage_url : string :=
  strip_trailing_slash SUPABASE_URL ++ "/storage/v1".

(** [storage.from(bucket).getPublicUrl(key).data.publicUrl]: the client
    renders [`${url}/object/public/${bucket}/${key}`] and returns its
    [encodeURI]. *)
Definition getPublicUrl (key : string) : string :=
  encodeURI (storage_url ++ "/object/public/" ++ BUCKET_NAME ++ "/" ++ key).

Definition uploadToSupabase (file : Upload) : M R string :=
  o <- ask ;;
  let uniqueFilename := stamped (clock o) (originalname file) in
  error <- storage_upload uniqueFilename (buffer file) ;;
  match error with
  | Some _ => throw (JsError "Failed to upload file to Supabase")
  | None => ret (getPublicUrl uniqueFilename)
  end.

Definition deleteFromSupabase (fileUrl : string) : M R unit :=
  let filePath := remove_first public_prefix fileUrl in
  error <- storage_remove filePath ;;
  match error with
  | Some _ => throw (JsError "Failed to delete file from Supabase")
  | None => ret tt
  end.

(** [POST /api/news] and the routes of the same text (extracurriculars,
    alumni, galeri, sarana).  With memory storage [req.file] is the
    part itself. *)
Definition post_image (failed : string)
    (fields : F) (file : option Upload) : M R (Response R) :=
  try_catch
    (image <- match file with
              | Some f => url <- uploadToSupabase f ;; ret (JsStr url)
              | None => ret JsNull
              end ;;
     created <- create (new_row fields image) ;;
     ret (json (JsonRecord created.1 created.2)))
    (fun error => ret (mkResponse 500 (JsonError failed (Some error)))).

(** [PUT /api/news/:id] and the routes of the same text (hero,
    extracurriculars, alumni, galeri, sarana). *)
Definition put_image (not_found failed : string)
    (id : string) (fields : F) (file : option Upload) : M R (Response R) :=
  try_catch
    (existing <- findUnique (parseInt id) ;;
     match existing with
     | None => ret (mkResponse 404 (JsonError not_found None))
     | Some (_, existing) =>
         newImage <-
           match file with
           | Some f =>
               newImage <- uploadToSupabase f ;;
               when_image (row_image existing) deleteFromSupabase ;;
               ret (JsStr newImage)
           | None => ret JsNull
           end ;;
         updated <- update (parseInt id)
                      (set_row fields
                         (js_or newImage (of_column (row_image existing)))) ;;
         ret (json (JsonRecord updated.1 updated.2))
     end)
    (fun error => ret (mkResponse 500 (JsonError failed (Some error)))).

(** [DELETE /api/news/:id] and the routes of the same text. *)
Definition delete_image (not_found failed : string)
    (id : string) : M R (Response R) :=
  try_catch
    (existing <- findUnique (parseInt id) ;;
     match existing with
     | None => ret (mkResponse 404 (JsonError not_found None))
     | Some (_, existing) =>
         when_image (row_image existing) deleteFromSupabase ;;
         delete_row (parseInt id) ;;
         ret (mkResponse 204 NoBody)
     end)
    (fun error => ret (mkResponse 500 (JsonError failed (Some error)))).

(** [`/uploads/${req.file.filename}`]: memory storage sets no
    [filename], so the template renders [undefined]. *)
Definition uploads_filename (file : Upload) : string :=
  "/uploads/" ++ "undefined".

(** [PUT /api/headmaster-message/:id]: no lookup, no upload, no removal
    of the previous blob. *)
Definition put_headmaster_message
    (id : string) (fields : F) (file : option Upload) : M R (Response R) :=
  let image := match file with
               | Some f => JsStr (uploads_filename f)
               | None => JsNull
               end in
  try_catch
    (updated <- update (parseInt id)
                  (set_row fields (js_or image JsUndefined)) ;;
     ret (json (JsonRecord updated.1 updated.2)))
    (fun error =>
       ret (mkResponse 500
              (JsonError "Failed to update headmaster message" None))).

(** [PUT /api/staffandteachers/:id]: as above and without [try]. *)
Definition put_staffandteachers
    (id : string) (fields : F) (file : option Upload) : M R (Response R) :=
  let image := match file with
               | Some f => JsStr (uploads_filename f)
               | None => JsNull
               end in
  updated <- update (parseInt id)
               (set_row fields (js_or image JsUndefined)) ;;
  ret (json (JsonRecord updated.1 updated.2)).

(** [DELETE /api/staffandteachers/:id]: the row only. *)
Definition delete_staffandteachers (id : string) : M R (Response R) :=
  try_catch
    (delete_row (parseInt id) ;;
     ret (mkResponse 204 NoBody))
    (fun error =>
       ret (mkResponse 500
              (JsonError "Failed to delete staff or teacher" None))).

(** [POST /api/strukturOrganisasi] (lines 939-960): the reference is
    spelled from [req.file.filename]; nothing is uploaded. *)
Definition post_strukturOrganisasi (fields : F) (file : option Upload)
  : M R (Response R) :=
  let image := match file with
               | Some f => JsStr (uploads_filename f)
               | None => JsNull
               end in
  try_catch
    (newPerson <- create (new_row fields image) ;;
     ret (json (JsonRecord newPerson.1 newPerson.2)))
    (fun error =>
       ret (mkResponse 500
              (JsonError "Failed to create struktur organisasi" None))).

(** [PUT /api/strukturOrganisasi/:id] (lines 962-985). *)
Definition put_strukturOrganisasi
    (id : string) (fields : F) (file : option Upload) : M R (Response R) :=
  let image := match file with
               | Some f => JsStr (uploads_filename f)
               | None => JsNull
               end in
  try_catch
    (updated <- update (parseInt id)
                  (set_row fields (js_or image JsUndefined)) ;;
     ret (json (JsonRecord updated.1 updated.2)))
    (fun error =>
       ret (mkResponse 500
              (JsonError "Failed to update struktur organisasi" None))).

(** [DELETE /api/strukturOrganisasi/:id] (lines 987-1007). *)
Definition delete_strukturOrganisasi (id : string) : M R (Response R) :=
  let parsedId := parseInt id in
  match parsedId with
  | None => ret (mkResponse 400 (JsonError "Invalid ID" None))
  | Some _ =>
      try_catch
        (delete_row parsedId ;;
         ret (mkResponse 204 NoBody))
        (fun error =>
           ret (mkResponse 500 (Text "Error deleting struktur organisasi")))
  end.

(** [POST /api/staffandteachers] (lines 1010-1027). *)
Definition post_staffandteachers (fields : F) (file : option Upload)
  : M R (Response R) :=
  let image := match file with
               | Some f => JsStr (uploads_filename f)
               | None => JsNull
               end in
  try_catch
    (created <- create (new_row fields image) ;;
     ret (mkResponse 201 (JsonRecord created.1 created.2)))
    (fun error =>
       ret (mkResponse 500
              (JsonError "Failed to create staff or teacher" None))).
End Handlers.

Definition post_news url := @post_image url NewsFields "Failed to create news".
Definition put_news url :=
  @put_image url NewsFields "News not found" "Failed to update news".
Definition delete_news url :=
  @delete_image url NewsFields "News not found" "Failed to delete news".
Definition get_news_by_id := @get_by_id (Row NewsFields).
(** The announcements table has no file column. *)
Definition get_announcement_by_id := @get_by_id AnnouncementFields.

(** The announcements routes (lines 180-265); the table has no file
    column. *)

(** [req.body] of the announcements routes: each field may be missing. *)
Record AnnouncementBody : Type := mkAnnouncementBody {
  body_title : JsVal;
  body_description : JsVal;
  body_publishedDate : JsVal }.

(** The text of a field known to be a string. *)
Definition as_text (v : JsVal) : string :=
  match v with
  | JsStr s => s
  | _ => ""
  end.

Section Announcements.
(** [!isNaN(new Date(s).getTime())] *)
Variable date_parses : string -> bool.

(** The fields of the body are absent, [null] or text; the row keeps
    [new Date(publishedDate)] as the text the date was read from. *)
Definition post_announcement (body : AnnouncementBody)
  : M AnnouncementFields (Response AnnouncementFields) :=
  let title := body_title body in
  let description := body_description body in
  let publishedDate := body_publishedDate body in
  if negb (truthy title) || negb (truthy description)
     || negb (truthy publishedDate)
     || negb (date_parses (as_text publishedDate))
  then ret (mkResponse 400 (JsonError "Invalid or missing fields" None))
  else
    try_catch
      (newAnnouncement <-
         create (mkAnnouncement (as_text title) (as_text description)
                   (as_text publishedDate)) ;;
       ret (json (JsonRecord newAnnouncement.1 newAnnouncement.2)))
      (fun error => ret (mkResponse 500 (Text "Error creating announcement"))).

(** The date column is required: a [null] date is refused by the client
    before any row is touched. *)
Definition put_announcement (id : string) (body : AnnouncementBody)
  : M AnnouncementFields (Response AnnouncementFields) :=
  let title := body_title body in
  let description := body_description body in
  let publishedDate := body_publishedDate body in
  if negb (truthy title) || negb (truthy description)
     || negb (truthy publishedDate)
  then ret (mkResponse 400 (JsonError "Missing required fields" None))
  else
    let parsedDate :=
      if truthy publishedDate && date_parses (as_text publishedDate)
      then Some (as_text publishedDate)
      else None in
    try_catch
      (updatedAnnouncement <-
         match parsedDate with
         | Some date =>
             update (parseInt id)
               (fun _ => mkAnnouncement (as_text title) (as_text description)
                           date)
         | None => record (CallUpdate (parseInt id)) ;; throw PrismaFailure
         end ;;
       ret (json (JsonRecord updatedAnnouncement.1 updatedAnnouncement.2)))
      (fun error =>
         ret (mkResponse 500 (JsonError "Error updating announcement" None))).

Definition delete_announcement (id : string)
  : M AnnouncementFields (Response AnnouncementFields) :=
  try_catch
    (delete_row (parseInt id) ;;
     ret (mkResponse 204 NoBody))
    (fun error => ret (mkResponse 500 (Text "Error deleting announcement"))).
End Announcements.

End Supabase.

(** ** World updates used to state results *)

Definition logged {R} (w : World R) (cs : list Call) : World R :=
  mkWorld (table w) (next_id w) (blobs w) (calls w ++ cs).

Definition with_table {R} (t : gmap Z R) (w : World R) : World R :=
  mkWorld t (next_id w) (blobs w) (calls w).

Definition with_blobs {R} (b : gmap string (list Byte.byte)) (w : World R)
  : World R :=
  mkWorld (table w) (next_id w) b (calls w).

(** The store refuses the upload [f]: the service fails, or the key is
    taken. *)
Definition upload_refused {R} (o : Oracle) (w : World R) (f : Upload) : Prop :=
  put_fails o = true
  \/ is_Some (blobs w !! stamped (clock o) (originalname f)).

(** Nothing but the call trace differs between [w] and [w']. *)
Definition untouched {R} (w w' : World R) : Prop :=
  table w' = table w /\ next_id w' = next_id w /\ blobs w' = blobs w.







(** A request that fails and commits nothing: no 2xx answer, and the table,
    the id sequence and the blobs are as before. *)
Definition is_success {R} (out : Outcome R) : bool :=
  match out with
  | Sent r => (200 <=? status r) && (status r <? 300)
  | Escaped _ => false
  end.

Definition fails_uncommitted {R} (h : M R (Response R)) (o : Oracle)
    (w : World R) : Prop :=
  is_success (run h o w).2 = false /\ untouched w (run h o w).1.

(** *** A small world for closed examples: one news row with a stored
    image *)

Definition photo : Upload :=
  mkUpload "photo2.png" "image/png" [Byte.x89; Byte.x50; Byte.x4e; Byte.x47].

(** A file whose name holds a character that [encodeURI] escapes. *)
Definition spaced_photo : Upload :=
  mkUpload "my photo.png" "image/png" [Byte.x89; Byte.x50; Byte.x4e; Byte.x47].

Definition news1 : Row NewsFields :=
  mkRow (mkNews "Open day" "Gates open at nine" "2025-01-08")
    (Some "/uploads/1736300000000-photo.png").

Definition news1' : NewsFields :=
  mkNews "Open day" "Gates open at ten" "2025-01-08".

Definition local_world : World (Row NewsFields) :=
  mkWorld {[ 1 := news1 ]} 2
    {[ "uploads/1736300000000-photo.png" := [Byte.x01; Byte.x02] ]} [].

Definition project_url : string := "https://school.supabase.co".

Definition bucket_world {F} (fields : F) : World (Row F) :=
  mkWorld
    {[ 1 := mkRow fields
              (Some (Supabase.getPublicUrl project_url "1736300000000-photo.png")) ]}
    2
    {[ "1736300000000-photo.png" := [Byte.x01; Byte.x02] ]} [].

Definition headmaster : HeadmasterFields :=
  mkHeadmaster "Selamat datang" "Pesan kepala sekolah" "Dr. John Doe".

Definition siti : PersonFields := mkPerson "Siti" "Guru".

(** A staff row whose image column holds the empty string. *)
Definition staff_world : World (Row PersonFields) :=
  mkWorld {[ 1 := mkRow siti (Some "") ]} 2 ∅ [].

Definition disk_photo : Local.DiskFile :=
  Local.mkDiskFile "1736400000000-photo2.png" "photo2.png".

(** The image column of the whole table. *)
Definition image_column {F} (w : World (Row F)) : gmap Z (option string) :=
  row_image <$> table w.

(** ** Identifiers, names and ownership *)

(** The values of a Prisma [Int] column, such as every [id] of the
    schema: 32-bit signed integers. *)
Definition int_column (n : Z) : bool :=
  (-2147483648 <=? n) && (n <=? 2147483647).

(** The text is made of decimal digits. *)
Fixpoint all_digits (s : string) : bool :=
  match s with
  | EmptyString => true
  | String a s' => bool_decide (is_Some (digit_value 10 a)) && all_digits s'
  end.

(** The text is empty or starts with something else than a decimal digit. *)
Definition no_digit_ahead (s : string) : bool :=
  match s with
  | EmptyString => true
  | String a _ => bool_decide (digit_value 10 a = None)
  end.

(** [pat] occurs somewhere in [s]. *)
Fixpoint occurs (pat s : string) : bool :=
  String.prefix pat s
  || match s with
     | String _ s' => occurs pat s'
     | EmptyString => false
     end.

(** Every row with a non-empty reference has its blob in the store. *)
Definition all_references_live {F} (resolve : string -> string)
    (w : World (Row F)) : Prop :=
  forall (n : Z) (r : Row F) (ref : string),
    table w !! n = Some r -> row_image r = Some ref -> ref <> "" ->
    is_Some (blobs w !! resolve ref).

(** No two rows lead to the same blob. *)
Definition references_exclusive {F} (resolve : string -> string)
    (w : World (Row F)) : Prop :=
  forall (n m : Z) (r r' : Row F) (ref ref' : string),
    table w !! n = Some r -> table w !! m = Some r' ->
    row_image r = Some ref -> row_image r' = Some ref' ->
    ref <> "" -> ref' <> "" ->
    resolve ref = resolve ref' -> n = m.

Definition well_owned {F} (resolve : string -> string) (w : World (Row F))
  : Prop :=
  all_references_live resolve w /\ references_exclusive resolve w.

(** *** Data for closed examples of the further properties *)

(** A news row that has no image yet. *)
Definition plain_world : World (Row NewsFields) :=
  mkWorld {[ 1 := mkRow news1' None ]} 2 ∅ [].

(** A hero row as the seed script writes it (line 11 of [seed.ts]): the
    image is not a URL of the bucket. *)
Definition seeded_world : World (Row NewsFields) :=
  mkWorld {[ 1 := mkRow news1' (Some "hero_image_url_1") ]} 2 ∅ [].

Definition no_announcements : World AnnouncementFields :=
  mkWorld ∅ 1 ∅ [].

(** A stand-in for the date parser in examples: a date is ten characters
    long. *)
Definition ten_characters (s : string) : bool :=
  (String.length s =? 10)%nat.

(** A table that holds one announcement. *)
Definition one_announcement : World AnnouncementFields :=
  mkWorld {[ 1 := mkAnnouncement "Rapat" "Rapat wali murid" "2025-01-05" ]}
    2 ∅ [].

(** The scalar columns of a contact message. *)
Record ContactFields : Type := mkContact {
  contact_name : string;
  contact_email : string;
  contact_phone : string;
  contact_message : string }.

Definition inbox : World ContactFields :=
  mkWorld {[ 1 := mkContact "Budi" "budi@example.com" "0812" "Halo" ]} 2 ∅ [].

Definition notice : Supabase.AnnouncementBody :=
  Supabase.mkAnnouncementBody (JsStr "Libur") (JsStr "Sekolah libur")
    (JsStr "2025-01-10").

Definition vague_notice : Supabase.AnnouncementBody :=
  Supabase.mkAnnouncementBody (JsStr "Libur") (JsStr "Sekolah libur")
    (JsStr "soon").

(** ** Authentication ([src/index.js], lines 63-113) *)

(** [s.split(sep)] for a one-character separator. *)
Fixpoint split_on (sep : ascii) (s : string) : list string :=
  match s with
  | EmptyString => [EmptyString]
  | String a s' =>
      if Ascii.eqb a sep then EmptyString :: split_on sep s'
      else match split_on sep s' with
           | word :: words => String a word :: words
           | [] => [String a EmptyString]
           end
  end.

(** The text holds no space. *)
Fixpoint no_space (s : string) : bool :=
  match s with
  | EmptyString => true
  | String a s' => negb (Ascii.eqb a " ") && no_space s'
  end.

Module Auth.

(** The payload of a verified token; [exp] is in seconds and may be
    missing. *)
Record Claims : Type := mkClaims {
  claim_id : Z;
  exp : option Z }.

(** What the middleware does with the request. *)
Inductive Gate : Type :=
| Next (user : Claims)                  (* req.user = decoded; next() *)
| Deny (status : Z) (error : string).   (* res.status(..).json({ error }) *)

(** A row of the admin table; [username] is unique and [password] holds
    the bcrypt hash. *)
Record Admin : Type := mkAdmin {
  admin_id : Z;
  username : string;
  password : string }.

Section Auth.
(** [jwt.verify(token, SECRET_KEY)]: [None] when it throws. *)
Variable verify : string -> option Claims.
(** [bcrypt.compare(password, hash)] *)
Variable compare : string -> string -> bool.
(** [jwt.sign({ id }, SECRET_KEY, { expiresIn: "1h" })] at a given time:
    [None] when it throws. *)
Variable sign : Z -> N -> option string.

(** [decoded.exp * 1000 < Date.now()]; a missing [exp] compares false. *)
Definition expired (decoded : Claims) (now : N) : bool :=
  match exp decoded with
  | Some seconds => seconds * 1000 <? Z.of_N now
  | None => false
  end.

(** [req.headers.authorization?.split(" ")[1]] *)
Definition bearer (authorization : option string) : option string :=
  match authorization with
  | Some header => split_on " " header !! 1%nat
  | None => None
  end.

Definition authenticateToken (authorization : option string) (now : N)
  : Gate :=
  match bearer authorization with
  | None => Deny 401 "Access denied"
  | Some token =>
      if negb (truthy (JsStr token)) then Deny 401 "Access denied"
      else match verify token with
           | Some decoded =>
               if expired decoded now
               then Deny 403 "Token expired, please log in again"
               else Next decoded
           | None => Deny 403 "Invalid token"
           end
  end.

Definition invalid_credentials : Answer Admin :=
  mkAnswer 401 (Plain (JsonError "Invalid username or password" None)).

(** [POST /admin/login]; [admins] is the admin table by username and
    [db_fails] says that [findUnique] rejects. *)
Definition login (admins : gmap string Admin) (db_fails : bool) (now : N)
    (name pass : string) : Answer Admin :=
  let failed :=
    mkAnswer 500 (Plain (JsonError "An error occurred during login" None)) in
  if db_fails then failed
  else match admins !! name with
       | None => invalid_credentials
       | Some admin =>
           let isValidPassword := compare pass (password admin) in
           if negb isValidPassword then invalid_credentials
           else match sign (admin_id admin) now with
                | Some token => mkAnswer 200 (JsonToken token)
                | None => failed
                end
       end.
End Auth.

End Auth.

(** A stand-in for [jwt.verify] in examples: one token is good. *)
Definition one_good_token (token : string) : option Auth.Claims :=
  if String.eqb token "good" then Some (Auth.mkClaims 1 None) else None.

(** * Properties *)

(** ** The string helpers on examples *)

Example parseInt_42 : parseInt "42" = Some 42.
Proof. reflexivity. Qed.

Example parseInt_trailing : parseInt " -17abc" = Some (-17).
Proof. reflexivity. Qed.

Example parseInt_hex : parseInt "0x1f" = Some 31.
Proof. reflexivity. Qed.

Example parseInt_nan : parseInt "abc" = None.
Proof. reflexivity. Qed.

Example remove_first_mid : remove_first "bc" "abcbc" = "abc".
Proof. reflexivity. Qed.



(** ** Running the collaborators one call at a time *)

Section Steps.
Context {R : Type}.
Implicit Types (o : Oracle) (w : World R).

Lemma bind_inr {A B} (m : M R A) (k : A -> M R B) o w w' a :
  m o w = (w', inr a) -> bind m k o w = k a o w'.
Proof. unfold bind. by intros ->. Qed.

Lemma bind_inl {A B} (m : M R A) (k : A -> M R B) o w w' e :
  m o w = (w', inl e) -> bind m k o w = (w', inl e).
Proof. unfold bind. by intros ->. Qed.

Lemma findUnique_ok o w n :
  find_fails o = false ->
  findUnique (Some n) o w
  = (logged w [CallFindUnique (Some n)], inr (pair n <$> table w !! n)).
Proof. intros Hf. unfold findUnique, bind, record, ask, get. by rewrite Hf. Qed.

Lemma findUnique_cases o w id :
  (exists e, findUnique id o w = (logged w [CallFindUnique id], inl e))
  \/ (exists n, id = Some n /\ find_fails o = false
       /\ findUnique id o w
          = (logged w [CallFindUnique id], inr (pair n <$> table w !! n))).
Proof.
  unfold findUnique, bind, record, ask, get, throw, ret.
  destruct (find_fails o), id; eauto 6.
Qed.

Lemma findUnique_frame o w id :
  exists r, findUnique id o w = (logged w [CallFindUnique id], r).
Proof.
  unfold findUnique, bind, record, ask, get, throw, ret.
  destruct (find_fails o), id; eauto.
Qed.

Lemma create_ok o w (data : R) :
  write_fails o = false ->
  table w !! next_id w = None ->
  create data o w
  = (mkWorld (<[next_id w := data]> (table w)) (next_id w + 1) (blobs w)
       (calls w ++ [CallCreate]),
     inr (next_id w, data)).
Proof.
  intros Hf Hn. unfold create, bind, record, ask, get. cbn. by rewrite Hf, Hn.
Qed.

(** Either nothing is written, or the row is stored under the next id. *)
Lemma create_cases o w (data : R) :
  (exists e, create data o w = (logged w [CallCreate], inl e))
  \/ create data o w
     = (mkWorld (<[next_id w := data]> (table w)) (next_id w + 1) (blobs w)
          (calls w ++ [CallCreate]),
        inr (next_id w, data)).
Proof.
  unfold create, bind, record, ask, get, throw. cbn.
  destruct (write_fails o); [by eauto|].
  destruct (table w !! next_id w); by eauto.
Qed.

Lemma update_ok o w n (r : R) (data : R -> R) :
  write_fails o = false ->
  table w !! n = Some r ->
  update (Some n) data o w
  = (with_table (<[n := data r]> (table w)) (logged w [CallUpdate (Some n)]),
     inr (n, data r)).
Proof.
  intros Hf Hn. unfold update, bind, record, ask, get. cbn. by rewrite Hf, Hn.
Qed.

Lemma update_absent o w n (data : R -> R) :
  write_fails o = false ->
  table w !! n = None ->
  update (Some n) data o w
  = (logged w [CallUpdate (Some n)], inl PrismaNotFound).
Proof.
  intros Hf Hn. unfold update, bind, record, ask, get. cbn. by rewrite Hf, Hn.
Qed.


(** Either nothing is written, or row [n] exists and is rewritten. *)
Lemma update_cases o w id (data : R -> R) :
  (exists e, update id data o w = (logged w [CallUpdate id], inl e))
  \/ (exists n r, id = Some n /\ table w !! n = Some r
                  /\ write_fails o = false).
Proof.
  unfold update, bind, record, ask, get, throw. cbn.
  destruct (write_fails o); [by eauto|].
  destruct id as [n|]; [|by eauto].
  destruct (table w !! n) eqn:E; [right|left]; by eauto.
Qed.

Lemma delete_row_ok o w n (r : R) :
  write_fails o = false ->
  table w !! n = Some r ->
  delete_row (Some n) o w
  = (with_table (delete n (table w)) (logged w [CallDelete (Some n)]),
     inr (n, r)).
Proof.
  intros Hf Hn. unfold delete_row, bind, record, ask, get. cbn.
  by rewrite Hf, Hn.
Qed.

Lemma delete_row_absent o w n :
  write_fails o = false ->
  table w !! n = None ->
  @delete_row R (Some n) o w
  = (logged w [CallDelete (Some n)], inl PrismaNotFound).
Proof.
  intros Hf Hn. unfold delete_row, bind, record, ask, get. cbn.
  by rewrite Hf, Hn.
Qed.

Lemma delete_row_fault o w id :
  write_fails o = true ->
  @delete_row R id o w = (logged w [CallDelete id], inl PrismaFailure).
Proof.
  intros Hf. unfold delete_row, bind, record, ask, get. cbn. by rewrite Hf.
Qed.

Lemma fs_write_ok o w path bytes :
  put_fails o = false ->
  fs_write path bytes o w
  = (with_blobs (<[path := bytes]> (blobs w)) (logged w [CallWriteFile path]),
     inr tt).
Proof. intros Hf. unfold fs_write, bind, record, ask, get. cbn. by rewrite Hf. Qed.


Lemma storage_upload_ok o w key bytes :
  put_fails o = false ->
  blobs w !! key = None ->
  storage_upload key bytes o w
  = (with_blobs (<[key := bytes]> (blobs w)) (logged w [CallUpload key]),
     inr None).
Proof.
  intros Hf Hk. unfold storage_upload, bind, record, ask, get. cbn.
  by rewrite Hf, Hk.
Qed.

Lemma storage_upload_refused o w key bytes :
  put_fails o = true \/ is_Some (blobs w !! key) ->
  exists msg, storage_upload key bytes o w
              = (logged w [CallUpload key], inr (Some msg)).
Proof.
  intros H. unfold storage_upload, bind, record, ask, get, ret. cbn.
  destruct (put_fails o); [by eauto|].
  destruct H as [?|[b Hb]]; [done|]. rewrite Hb. by eauto.
Qed.

Lemma storage_remove_ok o w key :
  del_fails o = false ->
  storage_remove key o w
  = (with_blobs (delete key (blobs w)) (logged w [CallRemove key]), inr None).
Proof.
  intros Hf. unfold storage_remove, bind, record, ask, get. cbn. by rewrite Hf.
Qed.

End Steps.

(** ** Reads *)

(** A read leaves the table, the id sequence and the blobs as they were,
    whatever the id and whatever the database answers. *)
Lemma get_by_id_frame {R} (id : string) (o : Oracle) (w : World R) :
  (run (get_by_id id) o w).1 = logged w [CallFindUnique (parseInt id)].
Proof.
  unfold run, get_by_id.
  destruct (findUnique_frame o w (parseInt id)) as [[e|item] E].
  - by rewrite (bind_inl _ _ _ _ _ _ E).
  - by rewrite (bind_inr _ _ _ _ _ _ E).
Qed.

Lemma get_by_id_absent {R} (id : string) (n : Z) (o : Oracle) (w : World R) :
  parseInt id = Some n ->
  table w !! n = None ->
  find_fails o = false ->
  run (get_by_id id) o w
  = (logged w [CallFindUnique (Some n)], Sent (mkResponse 200 JsonNull)).
Proof.
  intros Hid Hrow Hdb. unfold run, get_by_id.
  rewrite Hid, (bind_inr _ _ _ _ _ _ (findUnique_ok o w n Hdb)), Hrow.
  reflexivity.
Qed.

Lemma get_by_id_rejected {R} (id : string) (o : Oracle) (w : World R) :
  parseInt id = None \/ find_fails o = true ->
  run (get_by_id id) o w
  = (logged w [CallFindUnique (parseInt id)], Escaped PrismaFailure).
Proof.
  intros H.
  unfold run, get_by_id, bind, findUnique, record, ask, get, throw. cbn.
  destruct H as [-> | ->]; [by destruct (find_fails o)|done].
Qed.

(** C10, as the code has it.  [GET /api/<entity>/:id] is [findUnique]
    followed by [res.json], with no guard and no [try]:
    [GET /api/news/:id] of the local-disk server, and [GET /api/news/:id]
    and [GET /api/announcements/:id] of the object-store server.
    - For an id that [parseInt] reads as an integer borne by no row, the
      database answering the lookup, the response is 200 with the JSON
      body [null] rather than a NotFound error.
    - For an id that [parseInt] reads as [NaN], and whenever the database
      rejects the lookup (a number outside the [Int] column, a lost
      connection), the rejection escapes the handler: no response is
      sent, neither 200 nor an error.
    - No read, whatever its id, changes the table, the id sequence or the
      blobs. *)
Theorem get_by_id_null_or_no_response (id : string) (o : Oracle)
    (news : World (Row NewsFields)) (announcements : World AnnouncementFields) :
  (forall n : Z,
      parseInt id = Some n ->
      find_fails o = false ->
      table news !! n = None ->
      table announcements !! n = None ->
      run (Local.get_news_by_id id) o news
      = (logged news [CallFindUnique (Some n)], Sent (mkResponse 200 JsonNull))
      /\ run (Supabase.get_news_by_id id) o news
         = (logged news [CallFindUnique (Some n)],
            Sent (mkResponse 200 JsonNull))
      /\ run (Supabase.get_announcement_by_id id) o announcements
         = (logged announcements [CallFindUnique (Some n)],
            Sent (mkResponse 200 JsonNull)))
  /\ (parseInt id = None \/ find_fails o = true ->
      run (Local.get_news_by_id id) o news
      = (logged news [CallFindUnique (parseInt id)], Escaped PrismaFailure)
      /\ run (Supabase.get_news_by_id id) o news
         = (logged news [CallFindUnique (parseInt id)],
            Escaped PrismaFailure)
      /\ run (Supabase.get_announcement_by_id id) o announcements
         = (logged announcements [CallFindUnique (parseInt id)],
            Escaped PrismaFailure))
  /\ (forall any : string,
        untouched news (run (Local.get_news_by_id any) o news).1
        /\ untouched news (run (Supabase.get_news_by_id any) o news).1
        /\ untouched announcements
             (run (Supabase.get_announcement_by_id any) o announcements).1).
Proof.
  split; [|split].
  - intros n Hid Hdb Hnews Hann.
    split; [by apply get_by_id_absent|].
    split; by apply get_by_id_absent.
  - intros H.
    split; [by apply get_by_id_rejected|].
    split; by apply get_by_id_rejected.
  - intros any.
    unfold Local.get_news_by_id, Supabase.get_news_by_id,
      Supabase.get_announcement_by_id.
    by rewrite !get_by_id_frame.
Qed.

(** [GET /api/news/abc]: no row has this id, and the request is not
    answered with 200 and [null]: the rejection of the lookup escapes
    the handler in both servers. *)
Lemma get_news_abc_gets_no_response :
  (forall n r, table local_world !! n = Some r -> parseInt "abc" <> Some n)
  /\ run (Local.get_news_by_id "abc") (calm 1736400000000) local_world
     = (logged local_world [CallFindUnique None], Escaped PrismaFailure)
  /\ run (Supabase.get_news_by_id "abc") (calm 1736400000000)
       (bucket_world news1')
     = (logged (bucket_world news1') [CallFindUnique None],
        Escaped PrismaFailure).
Proof. split; [|split]; by vm_compute. Qed.

(** ** The two deletion helpers *)

Lemma remove_first_eq (pat s : string) :
  remove_first pat s
  = if String.prefix pat s then string_drop (String.length pat) s
    else match s with
         | String a s' => String a (remove_first pat s')
         | EmptyString => EmptyString
         end.
Proof. by destruct s. Qed.

Lemma prefix_app (p k : string) : String.prefix p (p ++ k) = true.
Proof.
  induction p as [|a p IH]; simpl; [by destruct k|].
  by destruct (ascii_dec a a).
Qed.

Lemma string_drop_app (p k : string) : string_drop (String.length p) (p ++ k) = k.
Proof. induction p as [|a p IH]; simpl; [by destruct k|done]. Qed.

(** A pattern at the start of the text is the occurrence removed. *)
Lemma remove_first_prefix (p k : string) : remove_first p (p ++ k) = k.
Proof. by rewrite remove_first_eq, prefix_app, string_drop_app. Qed.

(** ** Public URLs *)

Lemma append_cons (a : ascii) (s t : string) :
  String a s ++ t = String a (s ++ t).
Proof. reflexivity. Qed.

Lemma string_app_assoc (s t u : string) : (s ++ t) ++ u = s ++ t ++ u.
Proof. induction s as [|a s IH]; [done|]. by rewrite !append_cons, IH. Qed.

Lemma percent_encoded_app (a : ascii) (x : string) :
  exists h l, percent_encoded a ++ x = String "%" (String h (String l x)).
Proof. destruct a. by eexists _, _. Qed.

Lemma encodeURI_app (s t : string) :
  encodeURI (s ++ t) = encodeURI s ++ encodeURI t.
Proof.
  induction s as [|a s IH]; [done|].
  rewrite append_cons. cbn [encodeURI]. rewrite IH.
  destruct (uri_kept a); [done|]. by rewrite string_app_assoc.
Qed.

Lemma encodeURI_safe (s : string) : uri_safe s = true -> encodeURI s = s.
Proof.
  induction s as [|a s IH]; [done|]. cbn. intros H.
  apply andb_prop in H as [-> H]. by rewrite IH.
Qed.

Lemma uri_safe_app (s t : string) :
  uri_safe (s ++ t) = uri_safe s && uri_safe t.
Proof.
  induction s as [|a s IH]; [done|]. rewrite append_cons. cbn.
  by rewrite IH, andb_assoc.
Qed.

Lemma hex_digit_inj b0 b1 b2 b3 c0 c1 c2 c3 :
  hex_digit b0 b1 b2 b3 = hex_digit c0 c1 c2 c3 ->
  b0 = c0 /\ b1 = c1 /\ b2 = c2 /\ b3 = c3.
Proof.
  destruct b0, b1, b2, b3, c0, c1, c2, c3; intros H; try done;
    vm_compute in H; discriminate.
Qed.

Lemma percent_encoded_inj (a b : ascii) (x y : string) :
  percent_encoded a ++ x = percent_encoded b ++ y -> a = b /\ x = y.
Proof.
  destruct a as [a0 a1 a2 a3 a4 a5 a6 a7], b as [b0 b1 b2 b3 b4 b5 b6 b7].
  intros H. cbv beta iota delta [percent_encoded String.append] in H.
  injection H as Hh Hl ->.
  apply hex_digit_inj in Hh as (-> & -> & -> & ->).
  apply hex_digit_inj in Hl as (-> & -> & -> & ->). done.
Qed.

(** An escape starts with [%], which is itself escaped: the encoding can
    be read back in one way only. *)
Lemma encodeURI_inj (s t : string) : encodeURI s = encodeURI t -> s = t.
Proof.
  revert t. induction s as [|a s IH]; intros [|b t]; cbn [encodeURI].
  - done.
  - destruct (uri_kept b); [done|].
    destruct (percent_encoded_app b (encodeURI t)) as (h & l & ->). done.
  - destruct (uri_kept a); [done|].
    destruct (percent_encoded_app a (encodeURI s)) as (h & l & ->). done.
  - destruct (uri_kept a) eqn:Ka, (uri_kept b) eqn:Kb.
    + intros H. injection H as -> H. by rewrite (IH t H).
    + destruct (percent_encoded_app b (encodeURI t)) as (h & l & ->).
      intros H. injection H as -> _. done.
    + destruct (percent_encoded_app a (encodeURI s)) as (h & l & ->).
      intros H. injection H as <- _. done.
    + intros H. apply percent_encoded_inj in H as [-> H].
      by rewrite (IH t H).
Qed.

Lemma encodeURI_length (s : string) :
  (String.length s <= String.length (encodeURI s))%nat
  /\ (uri_safe s = false ->
      (String.length s < String.length (encodeURI s))%nat).
Proof.
  induction s as [|a s [IH1 IH2]]; [done|]. cbn [encodeURI uri_safe].
  destruct (uri_kept a); cbn [andb String.length].
  - split; [lia|]. intros H. specialize (IH2 H). lia.
  - destruct (percent_encoded_app a (encodeURI s)) as (h & l & ->).
    cbn [String.length]. split; [lia|]. intros _. lia.
Qed.

(** [encodeURI] changes exactly the texts that hold a character it does
    not keep. *)
Lemma encodeURI_fixed (s : string) : encodeURI s = s <-> uri_safe s = true.
Proof.
  split; [|apply encodeURI_safe].
  intros H. destruct (uri_safe s) eqn:E; [done|].
  destruct (encodeURI_length s) as [_ Hlt]. specialize (Hlt E).
  rewrite H in Hlt. lia.
Qed.

(** The public URL is the escaped base, the path of the bucket, and the
    escaped key. *)
Lemma getPublicUrl_eq (url key : string) :
  Supabase.getPublicUrl url key
  = encodeURI (strip_trailing_slash url)
    ++ "/storage/v1/object/public/uploads/" ++ encodeURI key.
Proof.
  unfold Supabase.getPublicUrl, Supabase.storage_url.
  rewrite string_app_assoc, encodeURI_app. by f_equal.
Qed.

(** For a plain project URL the public URL starts with the prefix that
    [deleteFromSupabase] removes, and what follows is the escaped key. *)
Lemma getPublicUrl_plain (url key : string) :
  plain_url url = true ->
  Supabase.getPublicUrl url key = Supabase.public_prefix url ++ encodeURI key.
Proof.
  intros H. apply andb_prop in H as [Hsafe Hslash].
  apply String.eqb_eq in Hslash.
  rewrite getPublicUrl_eq, Hslash, encodeURI_safe by done.
  unfold Supabase.public_prefix.
  change ("/storage/v1/object/public/" ++ Supabase.BUCKET_NAME ++ "/")
    with "/storage/v1/object/public/uploads/".
  by rewrite string_app_assoc.
Qed.

Lemma public_url_key (url key : string) :
  plain_url url = true ->
  remove_first (Supabase.public_prefix url) (Supabase.getPublicUrl url key)
  = encodeURI key.
Proof. intros H. by rewrite getPublicUrl_plain, remove_first_prefix. Qed.

Lemma digit_kept (a : ascii) :
  bool_decide (is_Some (digit_value 10 a)) = true -> uri_kept a = true.
Proof. destruct a as [[] [] [] [] [] [] [] []]; by vm_compute. Qed.

Lemma all_digits_safe (s : string) : all_digits s = true -> uri_safe s = true.
Proof.
  induction s as [|a s IH]; [done|]. cbn. intros H.
  apply andb_prop in H as [Ha Hs]. by rewrite digit_kept, IH.
Qed.

Lemma public_url_nonempty (url key : string) :
  Supabase.getPublicUrl url key <> "".
Proof.
  rewrite getPublicUrl_eq. by destruct (encodeURI (strip_trailing_slash url)).
Qed.

Section DeleteHelpers.
Context {F : Type}.
Implicit Types (o : Oracle) (w : World (Row F)).

Lemma deleteLocalFile_ok o w filePath :
  del_fails o = false ->
  Local.deleteLocalFile filePath o w
  = (with_blobs (delete (strip_leading_slash filePath) (blobs w))
       (logged w [CallUnlink (strip_leading_slash filePath)]),
     inr tt).
Proof.
  intros Hf.
  unfold Local.deleteLocalFile, try_catch, fs_unlink, bind, record, ask, get.
  cbn. rewrite Hf.
  destruct (blobs w !! strip_leading_slash filePath) eqn:E; cbn; [done|].
  by rewrite (delete_id _ _ E).
Qed.

Lemma deleteLocalFile_fault o w filePath :
  del_fails o = true ->
  Local.deleteLocalFile filePath o w
  = (logged w [CallUnlink (strip_leading_slash filePath)],
     inl (JsError "Failed to delete local file")).
Proof.
  intros Hf.
  unfold Local.deleteLocalFile, try_catch, fs_unlink, bind, record, ask, get.
  cbn. by rewrite Hf.
Qed.

Variable SUPABASE_URL : string.

Lemma deleteFromSupabase_ok o w fileUrl :
  del_fails o = false ->
  Supabase.deleteFromSupabase SUPABASE_URL fileUrl o w
  = (with_blobs
       (delete (remove_first (Supabase.public_prefix SUPABASE_URL) fileUrl)
          (blobs w))
       (logged w
          [CallRemove (remove_first (Supabase.public_prefix SUPABASE_URL)
                         fileUrl)]),
     inr tt).
Proof.
  intros Hf. unfold Supabase.deleteFromSupabase.
  by rewrite (bind_inr _ _ _ _ _ _ (storage_remove_ok o w _ Hf)).
Qed.


(** C7. Deleting a blob that the store no longer has counts as success
    and changes no blob, for [deleteLocalFile] (the ENOENT branch) and
    for [deleteFromSupabase]; hence a second deletion of the same
    reference, right after a first one, succeeds as well. *)
Theorem delete_of_absent_blob_succeeds o1 o2 w (ref : string) :
  del_fails o1 = false ->
  del_fails o2 = false ->
  let key := remove_first (Supabase.public_prefix SUPABASE_URL) ref in
  (blobs w !! strip_leading_slash ref = None ->
   exists w', Local.deleteLocalFile ref o1 w = (w', inr tt)
              /\ blobs w' = blobs w)
  /\ (blobs w !! key = None ->
      exists w', Supabase.deleteFromSupabase SUPABASE_URL ref o1 w = (w', inr tt)
                 /\ blobs w' = blobs w)
  /\ (exists w1 w2,
        Local.deleteLocalFile ref o1 w = (w1, inr tt)
        /\ Local.deleteLocalFile ref o2 w1 = (w2, inr tt)
        /\ blobs w1 !! strip_leading_slash ref = None
        /\ blobs w2 = blobs w1)
  /\ (exists w1 w2,
        Supabase.deleteFromSupabase SUPABASE_URL ref o1 w = (w1, inr tt)
        /\ Supabase.deleteFromSupabase SUPABASE_URL ref o2 w1 = (w2, inr tt)
        /\ blobs w1 !! key = None
        /\ blobs w2 = blobs w1).
Proof.
  intros H1 H2 key. repeat split.
  - intros Habs. eexists. split; [by apply deleteLocalFile_ok|].
    cbn. by apply delete_id.
  - intros Habs. eexists. split; [by apply deleteFromSupabase_ok|].
    cbn. by apply delete_id.
  - do 2 eexists. split; [by apply deleteLocalFile_ok|].
    split; [by apply deleteLocalFile_ok|]. cbn.
    split; [apply lookup_delete_eq|].
    apply delete_id, lookup_delete_eq.
  - do 2 eexists. split; [by apply deleteFromSupabase_ok|].
    split; [by apply deleteFromSupabase_ok|]. cbn.
    split; [apply lookup_delete_eq|].
    apply delete_id, lookup_delete_eq.
Qed.
End DeleteHelpers.

(** ** Updates that carry no file *)

Section NoFile.
Context {F : Type}.
Implicit Types (o : Oracle) (w : World (Row F)) (fields : F).

Lemma route_without_part (h : option Local.DiskFile -> M (Row F) (Response (Row F))) :
  Local.route None h = h None.
Proof. reflexivity. Qed.

(** Writing back the image a row already has leaves the column as it is. *)
Lemma image_column_insert_same w n (r : Row F) fields image :
  table w !! n = Some r ->
  write_image image (row_image r) = row_image r ->
  row_image <$> <[n := set_row fields image r]> (table w)
  = row_image <$> table w.
Proof.
  intros Hn Hi. rewrite fmap_insert. apply insert_id.
  rewrite lookup_fmap, Hn. cbn. by rewrite Hi.
Qed.

Lemma write_or_null (c : option string) :
  write_image (js_or JsNull (of_column c)) c = c.
Proof. by destruct c. Qed.

Lemma write_column (c : option string) : write_image (of_column c) c = c.
Proof. by destruct c. Qed.

(** An [update] whose data keep the image keeps the image column. *)
Lemma update_keeps_image_column o w id fields image :
  (forall n (r : Row F),
      id = Some n -> table w !! n = Some r ->
      write_image image (row_image r) = row_image r) ->
  image_column (update id (set_row fields image) o w).1 = image_column w.
Proof.
  intros Hi.
  destruct (update_cases o w id (set_row fields image))
    as [[e ->]|(n & r & -> & Hn & Hf)]; [done|].
  rewrite (update_ok o w n r _ Hf Hn). cbn.
  apply image_column_insert_same; eauto.
Qed.

Lemma blobs_update o w id (data : Row F -> Row F) :
  blobs (update id data o w).1 = blobs w.
Proof.
  destruct (update_cases o w id data) as [[e ->]|(n & r & -> & Hn & Hf)];
    [done|].
  by rewrite (update_ok o w n r _ Hf Hn).
Qed.
End NoFile.

Arguments findUnique : simpl never.
Arguments create : simpl never.
Arguments update : simpl never.
Arguments delete_row : simpl never.
Arguments fs_unlink : simpl never.
Arguments fs_write : simpl never.
Arguments storage_upload : simpl never.
Arguments storage_remove : simpl never.
Arguments Local.deleteLocalFile : simpl never.
Arguments Supabase.deleteFromSupabase : simpl never.
Arguments Supabase.uploadToSupabase : simpl never.
Arguments stamped : simpl never.

(** Closes [write_image image (row_image r') = row_image r'] when the
    row read before the update is the row being rewritten. *)
Ltac same_row Hn :=
  let Hr := fresh "Hr" in
  intros ? ? [= <-] Hr; cbn in Hr; rewrite Hn in Hr; injection Hr as <-;
  first [apply write_or_null | apply write_column | reflexivity].

(** Splits on the result of the [update] at the head of the goal, keeping
    what it does to the image column and to the blobs. *)
Ltac by_update Hn :=
  lazymatch goal with
  | |- context [update ?n (set_row ?fields ?image) ?o ?w1] =>
      let Hu := fresh "Hu" in
      let Hb := fresh "Hb" in
      pose proof (update_keeps_image_column o w1 n fields image) as Hu;
      pose proof (blobs_update o w1 n (set_row fields image)) as Hb;
      destruct (update n (set_row fields image) o w1) as [? [?|?]]; cbn in *;
      (split; [apply Hu|apply Hb]); try same_row Hn; try done
  end.

Section NoFileHandlers.
Context {F : Type}.
Implicit Types (o : Oracle) (w : World (Row F)) (fields : F).

Lemma local_put_image_no_file not_found failed id fields o w :
  image_column (run (Local.put_image not_found failed id fields None) o w).1
  = image_column w
  /\ blobs (run (Local.put_image not_found failed id fields None) o w).1
     = blobs w.
Proof.
  unfold run, Local.put_image, try_catch, bind.
  destruct (findUnique_cases o w (parseInt id))
    as [[e ->]|(n & -> & Hf & ->)]; [done|].
  destruct (table w !! n) as [r|] eqn:Hn; cbn; [|done].
  by_update Hn.
Qed.

Lemma local_put_staffandteachers_no_file id fields o w :
  image_column (run (Local.put_staffandteachers id fields None) o w).1
  = image_column w
  /\ blobs (run (Local.put_staffandteachers id fields None) o w).1 = blobs w.
Proof.
  unfold run, Local.put_staffandteachers, try_catch, bind.
  destruct (findUnique_cases o w (parseInt id))
    as [[e ->]|(n & -> & Hf & ->)]; [done|].
  destruct (table w !! n) as [r|] eqn:Hn; cbn; [|done].
  by_update Hn.
Qed.

Lemma local_put_strukturOrganisasi_no_file id fields o w :
  image_column (run (Local.put_strukturOrganisasi id fields None) o w).1
  = image_column w
  /\ blobs (run (Local.put_strukturOrganisasi id fields None) o w).1
     = blobs w.
Proof.
  unfold run, Local.put_strukturOrganisasi, try_catch, bind.
  destruct (findUnique_cases o w (parseInt id))
    as [[e ->]|(n & -> & Hf & ->)]; [done|].
  destruct (table w !! n) as [r|] eqn:Hn; cbn; [|done].
  by_update Hn.
Qed.

Lemma supabase_put_image_no_file url not_found failed id fields o w :
  image_column
    (run (Supabase.put_image url not_found failed id fields None) o w).1
  = image_column w
  /\ blobs (run (Supabase.put_image url not_found failed id fields None) o w).1
     = blobs w.
Proof.
  unfold run, Supabase.put_image, try_catch, bind.
  destruct (findUnique_cases o w (parseInt id))
    as [[e ->]|(n & -> & Hf & ->)]; [done|].
  destruct (table w !! n) as [r|] eqn:Hn; cbn; [|done].
  by_update Hn.
Qed.

Lemma supabase_put_staffandteachers_no_file id fields o w :
  image_column (run (Supabase.put_staffandteachers id fields None) o w).1
  = image_column w
  /\ blobs (run (Supabase.put_staffandteachers id fields None) o w).1
     = blobs w.
Proof.
  unfold run, Supabase.put_staffandteachers, bind. cbn.
  by_update I.
Qed.

Lemma supabase_put_headmaster_message_no_file id fields o w :
  image_column (run (Supabase.put_headmaster_message id fields None) o w).1
  = image_column w
  /\ blobs (run (Supabase.put_headmaster_message id fields None) o w).1
     = blobs w.
Proof.
  unfold run, Supabase.put_headmaster_message, try_catch, bind. cbn.
  by_update I.
Qed.

(** C5. An update that carries no file leaves the image reference of the
    addressed row -- of every row -- exactly as it was, whatever the id,
    the other fields and the behaviour of the database: for
    [PUT /api/news/:id] of the local-disk server (and the routes of the
    same text) and for [PUT /api/staffandteachers/:id] of the object-store
    server.  No request without a file turns a reference into null. *)
Theorem update_without_file_keeps_reference
    not_found failed id fields o w :
  image_column
    (run (Local.route None (Local.put_image not_found failed id fields)) o w).1
  = image_column w
  /\ image_column (run (Supabase.put_staffandteachers id fields None) o w).1
     = image_column w.
Proof.
  rewrite route_without_part. split.
  - apply local_put_image_no_file.
  - apply supabase_put_staffandteachers_no_file.
Qed.
End NoFileHandlers.

(** ** Storing an upload *)

Section Uploads.
Context {F : Type}.
Implicit Types (o : Oracle) (w : World (Row F)) (fields : F) (f : Upload).
Variable SUPABASE_URL : string.

Lemma upload_single_ok o w f :
  put_fails o = false ->
  let filename := stamped (clock o) (originalname f) in
  Local.upload_single (Some f) o w
  = (with_blobs (<["uploads/" ++ filename := buffer f]> (blobs w))
       (logged w [CallWriteFile ("uploads/" ++ filename)]),
     inr (Some (Local.mkDiskFile filename (originalname f)))).
Proof.
  intros Hf filename. unfold Local.upload_single, bind at 1, ask.
  by rewrite (bind_inr _ _ _ _ _ _ (fs_write_ok o w _ _ Hf)).
Qed.


Lemma uploadToSupabase_ok o w f :
  put_fails o = false ->
  let key := stamped (clock o) (originalname f) in
  blobs w !! key = None ->
  Supabase.uploadToSupabase SUPABASE_URL f o w
  = (with_blobs (<[key := buffer f]> (blobs w)) (logged w [CallUpload key]),
     inr (Supabase.getPublicUrl SUPABASE_URL key)).
Proof.
  intros Hf key Hk. unfold Supabase.uploadToSupabase, bind at 1, ask.
  by rewrite (bind_inr _ _ _ _ _ _ (storage_upload_ok o w _ _ Hf Hk)).
Qed.

Lemma uploadToSupabase_refused o w f :
  upload_refused o w f ->
  Supabase.uploadToSupabase SUPABASE_URL f o w
  = (logged w [CallUpload (stamped (clock o) (originalname f))],
     inl (JsError "Failed to upload file to Supabase")).
Proof.
  intros Hr. unfold Supabase.uploadToSupabase, bind at 1, ask.
  destruct (storage_upload_refused o w _ (buffer f) Hr) as [msg E].
  by rewrite (bind_inr _ _ _ _ _ _ E).
Qed.
End Uploads.


(** ** Creating a row *)

Section Create.
Context {F : Type}.
Implicit Types (o : Oracle) (w : World (Row F)) (fields : F) (f : Upload).
Variable SUPABASE_URL : string.

(** Without a file a create either stores a row whose reference is null,
    or stores nothing and answers 500: no other outcome exists. *)
Lemma post_image_without_file_cases failed fields o w :
  let created :=
    (mkWorld (<[next_id w := mkRow fields None]> (table w)) (next_id w + 1)
       (blobs w) (calls w ++ [CallCreate]),
     Sent (json (JsonRecord (next_id w) (mkRow fields None)))) in
  let refused e :=
    (logged w [CallCreate],
     Sent (mkResponse 500 (JsonError failed (Some e)))) in
  (run (Local.route None (Local.post_image failed fields)) o w = created
   \/ exists e,
       run (Local.route None (Local.post_image failed fields)) o w = refused e)
  /\ (run (Supabase.post_image SUPABASE_URL failed fields None) o w = created
      \/ exists e,
          run (Supabase.post_image SUPABASE_URL failed fields None) o w
          = refused e).
Proof.
  intros created refused. rewrite route_without_part.
  unfold run, Local.post_image, Supabase.post_image, try_catch, bind. cbn.
  destruct (create_cases o w (new_row fields JsNull)) as [[e ->]| ->]; cbn.
  - split; right; by exists e.
  - split; by left.
Qed.

(** C8. A create without a file stores a row whose reference is null; a
    create with a file stores the blob and a row whose reference is the
    reference of that blob: on the local-disk server [/uploads/] and the
    name of the file written, on the object-store server the public URL
    that the store gives for the key uploaded.  (That URL is escaped: the
    server's own conversion back to a key, the one it uses when it
    deletes, returns the key when the project URL is plain and the name
    holds only characters that [encodeURI] keeps.)  Stated for
    [POST /api/news] of both servers, the database and the store
    accepting the calls. *)
Theorem create_sets_reference failed fields f o w :
  write_fails o = false ->
  table w !! next_id w = None ->
  put_fails o = false ->
  blobs w !! stamped (clock o) (originalname f) = None ->
  let id := next_id w in
  let name := stamped (clock o) (originalname f) in
  let local_ref := Local.getLocalFileUrl name in
  let public_ref := Supabase.getPublicUrl SUPABASE_URL name in
  (exists w',
      run (Local.route None (Local.post_image failed fields)) o w
      = (w', Sent (json (JsonRecord id (mkRow fields None))))
      /\ table w' !! id = Some (mkRow fields None)
      /\ blobs w' = blobs w)
  /\ (exists w',
        run (Supabase.post_image SUPABASE_URL failed fields None) o w
        = (w', Sent (json (JsonRecord id (mkRow fields None))))
        /\ table w' !! id = Some (mkRow fields None)
        /\ blobs w' = blobs w)
  /\ (exists w',
        run (Local.route (Some f) (Local.post_image failed fields)) o w
        = (w', Sent (json (JsonRecord id (mkRow fields (Some local_ref)))))
        /\ table w' !! id = Some (mkRow fields (Some local_ref))
        /\ blobs w' !! strip_leading_slash local_ref = Some (buffer f))
  /\ (exists w',
        run (Supabase.post_image SUPABASE_URL failed fields (Some f)) o w
        = (w', Sent (json (JsonRecord id (mkRow fields (Some public_ref)))))
        /\ table w' !! id = Some (mkRow fields (Some public_ref))
        /\ blobs w' !! name = Some (buffer f)
        /\ (plain_url SUPABASE_URL = true -> uri_safe name = true ->
            remove_first (Supabase.public_prefix SUPABASE_URL) public_ref
            = name)).
Proof.
  intros Hw Hid Hp Hk id name local_ref public_ref.
  split; [|split; [|split]].
  - eexists. rewrite route_without_part.
    unfold run, Local.post_image, try_catch, bind.
    rewrite (create_ok o w _ Hw Hid). cbn.
    split; [reflexivity|]. split; [apply lookup_insert_eq|done].
  - eexists. unfold run, Supabase.post_image, try_catch, bind. cbn.
    rewrite (create_ok o w _ Hw Hid). cbn.
    split; [reflexivity|]. split; [apply lookup_insert_eq|done].
  - eexists. unfold run, Local.route, Local.post_image, try_catch, bind.
    rewrite (upload_single_ok o w f Hp). cbn.
    rewrite create_ok by done. cbn.
    split; [reflexivity|]. split; apply lookup_insert_eq.
  - eexists. unfold run, Supabase.post_image, try_catch, bind.
    rewrite (uploadToSupabase_ok SUPABASE_URL o w f Hp Hk). cbn.
    rewrite create_ok by done. cbn.
    split; [reflexivity|]. split; [apply lookup_insert_eq|].
    split; [apply lookup_insert_eq|].
    intros Hurl Hname. unfold public_ref.
    by rewrite public_url_key, encodeURI_safe.
Qed.
End Create.

(** ** A refused upload *)

Section RefusedUpload.
Context {F : Type}.
Implicit Types (o : Oracle) (w : World (Row F)) (fields : F) (f : Upload).
Variable SUPABASE_URL : string.

(** With a refused upload the update route writes nothing, whatever the
    id. *)
Lemma put_image_refused_untouched not_found failed id fields f o w :
  upload_refused o w f ->
  untouched w
    (run (Supabase.put_image SUPABASE_URL not_found failed id fields (Some f))
       o w).1.
Proof.
  intros Hr. unfold run, Supabase.put_image, try_catch, bind.
  destruct (findUnique_cases o w (parseInt id))
    as [[e ->]|(n & -> & Hf & ->)]; [done|].
  destruct (table w !! n) as [r|] eqn:Hn; cbn; [|done].
  rewrite (uploadToSupabase_refused SUPABASE_URL o (logged w _) f) by done.
  done.
Qed.

End RefusedUpload.

(** ** Updates that carry a file *)

Lemma when_image_truthy {R} (ref : string) (k : string -> M R unit) :
  ref <> "" -> when_image (Some ref) k = k ref.
Proof.
  intros Hne. unfold when_image, truthy.
  destruct (String.eqb ref "") eqn:E; [|done].
  by apply String.eqb_eq in E.
Qed.

Lemma public_url_truthy (url key : string) :
  truthy (JsStr (Supabase.getPublicUrl url key)) = true.
Proof.
  pose proof (public_url_nonempty url key) as H. cbn.
  destruct (String.eqb_spec (Supabase.getPublicUrl url key) ""); done.
Qed.

(** Normal form of a world for comparing results. *)
Ltac world_eq :=
  unfold logged, with_table, with_blobs; cbn;
  rewrite <- ?app_assoc; cbn; try reflexivity.

Section UpdateWithFile.
Context {F : Type}.
Implicit Types (o : Oracle) (w : World (Row F)) (fields : F) (f : Upload).
Variable SUPABASE_URL : string.



End UpdateWithFile.



(** ** Deleting a row *)

Section DeleteRow.
Context {F : Type}.
Implicit Types (o : Oracle) (w : World (Row F)).
Variable SUPABASE_URL : string.

End DeleteRow.



(** ** The routes of [index.js] that call helpers it does not declare *)

Section Undeclared.
Context {F : Type}.
Implicit Types (o : Oracle) (w : World (Row F)) (fields : F)
  (df : Local.DiskFile).

Lemma put_strukturOrganisasi_with_file_fails id fields df o w :
  fails_uncommitted (Local.put_strukturOrganisasi id fields (Some df)) o w.
Proof.
  unfold fails_uncommitted, run, Local.put_strukturOrganisasi, try_catch, bind.
  destruct (findUnique_cases o w (parseInt id))
    as [[e ->]|(n & -> & Hf & ->)]; [done|].
  by destruct (table w !! n) as [r|] eqn:Hn.
Qed.

Lemma put_staffandteachers_with_file_fails id fields df o w :
  fails_uncommitted (Local.put_staffandteachers id fields (Some df)) o w.
Proof.
  unfold fails_uncommitted, run, Local.put_staffandteachers, try_catch, bind.
  destruct (findUnique_cases o w (parseInt id))
    as [[e ->]|(n & -> & Hf & ->)]; [done|].
  by destruct (table w !! n) as [r|] eqn:Hn.
Qed.

(** C9, as the code has it.  In [index.js] the strukturOrganisasi and
    staffAndTeacher routes call [uploadToSupabase] and
    [deleteFromSupabase], which the file never declares:
    - a create with a file rejects with the ReferenceError before the
      [try], nothing is written;
    - an update with a file never succeeds and commits nothing, for any
      id; when the row exists the ReferenceError is caught and answered
      with 500;
    - a delete of a row whose image is neither null nor the empty string
      is answered with 500 and the row is kept. *)
Theorem undeclared_helper_aborts id fields df o w :
  run (Local.post_strukturOrganisasi fields (Some df)) o w
  = (w, Escaped (ReferenceError "uploadToSupabase"))
  /\ run (Local.post_staffandteachers fields (Some df)) o w
     = (w, Escaped (ReferenceError "uploadToSupabase"))
  /\ fails_uncommitted (Local.put_strukturOrganisasi id fields (Some df)) o w
  /\ fails_uncommitted (Local.put_staffandteachers id fields (Some df)) o w
  /\ (forall (n : Z) (r : Row F),
        parseInt id = Some n ->
        find_fails o = false ->
        table w !! n = Some r ->
        (run (Local.put_strukturOrganisasi id fields (Some df)) o w
         = (logged w [CallFindUnique (Some n)],
            Sent (mkResponse 500
                    (JsonError "Failed to update struktur organisasi" None)))
         /\ run (Local.put_staffandteachers id fields (Some df)) o w
            = (logged w [CallFindUnique (Some n)],
               Sent (mkResponse 500
                       (JsonError "Failed to update staff or teacher" None))))
        /\ (forall ref : string,
              row_image r = Some ref ->
              ref <> "" ->
              run (Local.delete_strukturOrganisasi id) o w
              = (logged w [CallFindUnique (Some n)],
                 Sent (mkResponse 500
                         (Text "Error deleting struktur organisasi")))
              /\ run (Local.delete_staffandteachers id) o w
                 = (logged w [CallFindUnique (Some n)],
                    Sent (mkResponse 500
                            (JsonError "Failed to delete staff or teacher"
                               None))))).
Proof.
  split; [done|]. split; [done|].
  split; [apply put_strukturOrganisasi_with_file_fails|].
  split; [apply put_staffandteachers_with_file_fails|].
  intros n r Hid Hf Hn.
  unfold run, Local.put_strukturOrganisasi, Local.put_staffandteachers,
    Local.delete_strukturOrganisasi, Local.delete_staffandteachers,
    try_catch, bind.
  rewrite Hid, findUnique_ok by done. cbn. rewrite Hn. cbn.
  split; [done|].
  intros ref Href Hne. by rewrite Href, !when_image_truthy.
Qed.
End Undeclared.

(** The delete fails only for a truthy image: a staff row whose image is
    the empty string (not null) is deleted by [index.js] with a 204. *)
Lemma delete_staff_with_empty_image_succeeds :
  (exists r, table staff_world !! 1 = Some r /\ row_image r <> None)
  /\ ~ fails_uncommitted (Local.delete_staffandteachers "1")
        (calm 1736400000000) staff_world
  /\ run (Local.delete_staffandteachers "1") (calm 1736400000000) staff_world
     = (mkWorld ∅ 2 ∅ [CallFindUnique (Some 1); CallDelete (Some 1)],
        Sent (mkResponse 204 NoBody)).
Proof.
  split; [by exists (mkRow siti (Some ""))|].
  split; [|by vm_compute].
  intros [Hfail _]. vm_compute in Hfail. discriminate.
Qed.

Lemma undeclared_helper_aborts_witness :
  run (Local.delete_staffandteachers "1") (calm 1736400000000)
    (with_table {[ 1 := mkRow siti (Some "/uploads/siti.png") ]} staff_world)
  = (mkWorld {[ 1 := mkRow siti (Some "/uploads/siti.png") ]} 2 ∅
       [CallFindUnique (Some 1)],
     Sent (mkResponse 500 (JsonError "Failed to delete staff or teacher" None))).
Proof.
  pose proof (undeclared_helper_aborts "1" siti disk_photo
                (calm 1736400000000)
                (with_table {[ 1 := mkRow siti (Some "/uploads/siti.png") ]}
                   staff_world))
    as (_ & _ & _ & _ & H).
  destruct (H 1 (mkRow siti (Some "/uploads/siti.png")) eq_refl eq_refl eq_refl)
    as (_ & Hdel).
  destruct (Hdel "/uploads/siti.png" eq_refl ltac:(discriminate)) as (_ & HS).
  etransitivity; [exact HS|]. by vm_compute.
Defined.

(** ** Requests on an id that no row has *)

Section AbsentId.
Context {F : Type}.
Implicit Types (o : Oracle) (w : World (Row F)) (fields : F).

(** X24. The guarded routes look the row up and answer 404 before anything
    else is called. *)
Lemma guarded_routes_answer_404 url not_found failed id n fields
    (df : option Local.DiskFile) (file : option Upload) o w :
  parseInt id = Some n ->
  find_fails o = false ->
  table w !! n = None ->
  let answer :=
    (logged w [CallFindUnique (Some n)],
     Sent (mkResponse 404 (JsonError not_found None))) in
  run (Local.put_image not_found failed id fields df) o w = answer
  /\ run (Local.delete_image not_found failed id) o w = answer
  /\ run (Supabase.put_image url not_found failed id fields file) o w = answer
  /\ run (Supabase.delete_image url not_found failed id) o w = answer.
Proof.
  intros Hid Hf Hn answer.
  unfold run, Local.put_image, Local.delete_image, Supabase.put_image,
    Supabase.delete_image, try_catch, bind.
  rewrite Hid, findUnique_ok by done. cbn. by rewrite Hn.
Qed.

(** [PUT /api/staffandteachers/:id] of the object-store server has
    neither the lookup nor a [try]: on an absent id the rejection of
    [update] escapes the handler. *)
Lemma unguarded_put_escapes id n fields file o w :
  parseInt id = Some n ->
  write_fails o = false ->
  table w !! n = None ->
  run (Supabase.put_staffandteachers id fields file) o w
  = (logged w [CallUpdate (Some n)], Escaped PrismaNotFound).
Proof.
  intros Hid Hw Hn. unfold run, Supabase.put_staffandteachers, bind.
  by rewrite Hid, update_absent.
Qed.

(** X26. [DELETE /api/staffandteachers/:id] of the object-store server
    has no lookup: on an absent id it catches the rejection of [delete]
    and answers with the generic 500. *)
Lemma unguarded_delete_is_500 id n o w :
  parseInt id = Some n ->
  write_fails o = false ->
  table w !! n = None ->
  run (Supabase.delete_staffandteachers id) o w
  = (logged w [CallDelete (Some n)],
     Sent (mkResponse 500
             (JsonError "Failed to delete staff or teacher" None))).
Proof.
  intros Hid Hw Hn.
  unfold run, Supabase.delete_staffandteachers, try_catch, bind.
  by rewrite Hid, delete_row_absent.
Qed.

(** X25. On the local-disk server the upload middleware has already written
    the file when the guarded handler answers 404. *)
Lemma local_404_leaves_upload not_found failed id n fields f o w :
  parseInt id = Some n ->
  find_fails o = false ->
  put_fails o = false ->
  table w !! n = None ->
  let path := "uploads/" ++ stamped (clock o) (originalname f) in
  run (Local.route (Some f) (Local.put_image not_found failed id fields)) o w
  = (mkWorld (table w) (next_id w) (<[path := buffer f]> (blobs w))
       (calls w ++ [CallWriteFile path; CallFindUnique (Some n)]),
     Sent (mkResponse 404 (JsonError not_found None))).
Proof.
  intros Hid Hf Hp Hn path.
  unfold run, Local.route, Local.put_image, try_catch, bind.
  rewrite (upload_single_ok o w f Hp), Hid. cbn.
  rewrite findUnique_ok by done. cbn. rewrite Hn. cbn. f_equal. world_eq.
Qed.

(** The headmaster-message update of the object-store server never
    calls the store. *)
Lemma put_headmaster_message_keeps_blobs id fields file o w :
  blobs (run (Supabase.put_headmaster_message id fields file) o w).1
  = blobs w.
Proof.
  unfold run, Supabase.put_headmaster_message, try_catch, bind.
  match goal with
  | |- context [update ?i ?d o w] =>
      pose proof (blobs_update o w i d) as Hb;
      destruct (update i d o w) as [? [?|?]]
  end; done.
Qed.
End AbsentId.

(** C6 at a failing input: [PUT /api/staffandteachers/7] of the
    object-store server, no row 7, no file.  No NotFound answer is sent:
    the record-not-found rejection of [update] escapes the handler. *)
Theorem put_staff_absent_id_not_404 :
  run (Supabase.put_staffandteachers "7" siti None) (calm 1736400000000)
    staff_world
  = (logged staff_world [CallUpdate (Some 7)], Escaped PrismaNotFound).
Proof. by apply unguarded_put_escapes. Qed.

(** C2 at a failing input: [PUT /api/headmaster-message/1] of the
    object-store server with a file.  The answer is 200, the row now
    holds [/uploads/undefined], no blob has been stored and the blob of
    the previous reference is still in the bucket. *)
Theorem put_headmaster_message_stores_nothing :
  run (Supabase.put_headmaster_message "1" headmaster (Some photo))
    (calm 1736400000000) (bucket_world headmaster)
  = (mkWorld {[ 1 := mkRow headmaster (Some "/uploads/undefined") ]} 2
       {[ "1736300000000-photo.png" := [Byte.x01; Byte.x02] ]}
       [CallUpdate (Some 1)],
     Sent (json (JsonRecord 1 (mkRow headmaster (Some "/uploads/undefined"))))).
Proof. by vm_compute. Qed.

(** ** The theorems at concrete requests *)

Lemma get_by_id_null_or_no_response_witness :
  run (Local.get_news_by_id "42") (calm 1736400000000) local_world
  = (logged local_world [CallFindUnique (Some 42)],
     Sent (mkResponse 200 JsonNull))
  /\ run (Supabase.get_announcement_by_id "42") (calm 1736400000000)
       (mkWorld ∅ 1 ∅ [])
     = (mkWorld ∅ 1 ∅ [CallFindUnique (Some 42)],
        Sent (mkResponse 200 JsonNull))
  /\ run (Local.get_news_by_id "n42") (calm 1736400000000) local_world
     = (logged local_world [CallFindUnique None], Escaped PrismaFailure).
Proof.
  destruct (get_by_id_null_or_no_response "42" (calm 1736400000000)
              local_world (mkWorld ∅ 1 ∅ [])) as (H & _ & _).
  destruct (H 42 eq_refl eq_refl ltac:(by vm_compute) ltac:(by vm_compute))
    as (Hnews & _ & Hann).
  destruct (get_by_id_null_or_no_response "n42" (calm 1736400000000)
              local_world (mkWorld ∅ 1 ∅ [])) as (_ & Hrej & _).
  destruct (Hrej (or_introl eq_refl)) as (Hnan & _).
  split; [exact Hnews|]. split; [exact Hann|exact Hnan].
Defined.

Lemma delete_of_absent_blob_succeeds_witness :
  exists w1 w2 : World (Row NewsFields),
    Local.deleteLocalFile "/uploads/1736300000000-photo.png"
      (calm 1736400000000) local_world = (w1, inr tt)
    /\ Local.deleteLocalFile "/uploads/1736300000000-photo.png"
         (calm 1736400000001) w1 = (w2, inr tt)
    /\ blobs w1 !! "uploads/1736300000000-photo.png" = None
    /\ blobs w2 = blobs w1.
Proof.
  destruct (delete_of_absent_blob_succeeds project_url
              (calm 1736400000000) (calm 1736400000001) local_world
              "/uploads/1736300000000-photo.png" eq_refl eq_refl)
    as (_ & _ & H & _).
  exact H.
Defined.

Lemma create_sets_reference_witness :
  exists w' : World (Row NewsFields),
    run (Supabase.post_news project_url news1' (Some photo))
      (calm 1736400000000) (bucket_world news1')
    = (w', Sent (json (JsonRecord 2
                         (mkRow news1'
                            (Some (Supabase.getPublicUrl project_url
                                     "1736400000000-photo2.png"))))))
    /\ table w' !! 2
       = Some (mkRow news1'
                 (Some (Supabase.getPublicUrl project_url
                          "1736400000000-photo2.png")))
    /\ blobs w' !! "1736400000000-photo2.png" = Some (buffer photo).
Proof.
  destruct (create_sets_reference project_url "Failed to create news" news1'
              photo (calm 1736400000000) (bucket_world news1')
              eq_refl eq_refl eq_refl ltac:(by vm_compute))
    as (_ & _ & _ & w' & Hrun & Hrow & Hblob & _).
  exists w'. split; [|split].
  - etransitivity; [exact Hrun|]. by vm_compute.
  - etransitivity; [exact Hrow|]. by vm_compute.
  - exact Hblob.
Defined.


(** An update without a file at work: the title changes, the reference
    and the blobs stay. *)
Example put_news_without_file :
  run (Local.route None (Local.put_news "1" news1')) (calm 1736400000000)
    local_world
  = (mkWorld {[ 1 := mkRow news1' (row_image news1) ]} 2 (blobs local_world)
       [CallFindUnique (Some 1); CallUpdate (Some 1)],
     Sent (json (JsonRecord 1 (mkRow news1' (row_image news1))))).
Proof. by vm_compute. Qed.

(** * Further properties *)

(** ** Ids on the wire *)

Lemma digit_value_char (d : N) :
  (d < 10)%N -> digit_value 10 (pretty_N_char d) = Some (Z.of_N d).
Proof.
  intros Hd.
  assert (d = 0 \/ d = 1 \/ d = 2 \/ d = 3 \/ d = 4 \/ d = 5 \/ d = 6 \/ d = 7
          \/ d = 8 \/ d = 9)%N as H by lia.
  destruct H as [->|[->|[->|[->|[->|[->|[->|[->|[->| ->]]]]]]]]]; reflexivity.
Qed.

Lemma read_digits_pretty_go (x : N) :
  forall (acc : option Z) (s : string),
    (0 < x)%N ->
    exists k : Z,
      0 <= k /\
      read_digits 10 acc (pretty_N_go x s)
      = read_digits 10 (Some (default 0 acc * 10 ^ k + Z.of_N x)) s.
Proof.
  induction (N.lt_wf_0 x) as [x _ IH]. intros acc s Hx.
  rewrite pretty_N_go_step by done.
  assert (Hd : (x `mod` 10 < 10)%N) by (apply N.mod_lt; lia).
  pose proof (N.div_mod x 10 ltac:(lia)) as Hx10.
  destruct (decide (x `div` 10 = 0)%N) as [E|E].
  - rewrite E, pretty_N_go_0. cbn [read_digits].
    rewrite digit_value_char by done.
    exists 1. split; [lia|]. f_equal. f_equal.
    rewrite Z.pow_1_r. lia.
  - destruct (IH (x `div` 10)%N) with (acc := acc)
      (s := String (pretty_N_char (x `mod` 10)) s) as (k & Hk & ->).
    { apply N.div_lt; lia. }
    { lia. }
    cbn [read_digits]. rewrite digit_value_char by done. cbn [default].
    exists (k + 1). split; [lia|]. f_equal. f_equal.
    rewrite Z.pow_add_r, Z.pow_1_r by lia. unfold id.
    generalize (10 ^ k). intros p. lia.
Qed.

Lemma all_digits_pretty_go (x : N) :
  forall s, all_digits s = true -> all_digits (pretty_N_go x s) = true.
Proof.
  induction (N.lt_wf_0 x) as [x _ IH]. intros s Hs.
  destruct (decide (x = 0)%N) as [->|Hx]; [by rewrite pretty_N_go_0|].
  rewrite pretty_N_go_step by lia.
  apply IH; [apply N.div_lt; lia|].
  cbn [all_digits]. rewrite Hs, digit_value_char by (apply N.mod_lt; lia).
  by rewrite bool_decide_eq_true_2.
Qed.

Lemma pretty_N_go_nonempty (x : N) s : (0 < x)%N -> pretty_N_go x s <> "".
Proof.
  revert s. induction (N.lt_wf_0 x) as [x _ IH]. intros s Hx.
  rewrite pretty_N_go_step by done.
  destruct (decide (x `div` 10 = 0)%N) as [->|E]; [by rewrite pretty_N_go_0|].
  apply IH; [apply N.div_lt; lia|by apply N.neq_0_lt_0].
Qed.


Ltac digit_cases d H :=
  assert (d = 0 \/ d = 1 \/ d = 2 \/ d = 3 \/ d = 4 \/ d = 5 \/ d = 6 \/ d = 7
          \/ d = 8 \/ d = 9)%N as H by lia;
  destruct H as [->|[->|[->|[->|[->|[->|[->|[->|[->| ->]]]]]]]]].

Lemma pretty_N_go_app (x : N) :
  forall s rest, pretty_N_go x s ++ rest = pretty_N_go x (s ++ rest).
Proof.
  induction (N.lt_wf_0 x) as [x _ IH]. intros s rest.
  destruct (decide (x = 0)%N) as [->|Hx]; [by rewrite !pretty_N_go_0|].
  rewrite (pretty_N_go_step x s), (pretty_N_go_step x (s ++ rest)) by lia.
  rewrite IH by (apply N.div_lt; lia). reflexivity.
Qed.

Lemma pretty_N_go_head (x : N) :
  forall s, (0 < x)%N ->
    exists d t, (0 < d < 10)%N /\ pretty_N_go x s = String (pretty_N_char d) t.
Proof.
  induction (N.lt_wf_0 x) as [x _ IH]. intros s Hx.
  rewrite pretty_N_go_step by done.
  pose proof (N.div_mod x 10 ltac:(lia)) as Hx10.
  assert (Hd : (x `mod` 10 < 10)%N) by (apply N.mod_lt; lia).
  destruct (decide (x `div` 10 = 0)%N) as [E|E].
  - rewrite E, pretty_N_go_0. exists (x `mod` 10)%N, s. split; [|done].
    rewrite E in Hx10. lia.
  - apply IH; [apply N.div_lt; lia|by apply N.neq_0_lt_0].
Qed.

Lemma read_unsigned_digit (d : N) (t : string) :
  (0 < d < 10)%N ->
  read_unsigned (String (pretty_N_char d) t)
  = read_digits 10 None (String (pretty_N_char d) t).
Proof. intros Hd. digit_cases d H; (lia || reflexivity). Qed.

Lemma parseInt_digit (d : N) (t : string) :
  (d < 10)%N ->
  parseInt (String (pretty_N_char d) t)
  = read_unsigned (String (pretty_N_char d) t).
Proof. intros Hd. digit_cases d H; reflexivity. Qed.

Lemma read_digits_stop (acc : option Z) (rest : string) :
  no_digit_ahead rest = true -> read_digits 10 acc rest = acc.
Proof.
  destruct rest as [|a rest]; [done|]. cbn. intros H.
  apply bool_decide_eq_true_1 in H. by rewrite H.
Qed.

Lemma read_unsigned_pretty (x : N) (rest : string) :
  (0 < x)%N -> no_digit_ahead rest = true ->
  read_unsigned (pretty x ++ rest) = Some (Z.of_N x)
  /\ parseInt (pretty x ++ rest) = Some (Z.of_N x).
Proof.
  intros Hx Hrest. unfold pretty, pretty_N.
  rewrite decide_False by lia.
  rewrite pretty_N_go_app. change ("" ++ rest) with rest.
  destruct (pretty_N_go_head x rest Hx) as (d & t & Hd & E).
  assert (Hr : read_unsigned (pretty_N_go x rest) = Some (Z.of_N x)).
  { rewrite E, read_unsigned_digit, <- E by done.
    destruct (read_digits_pretty_go x None rest Hx) as (k & _ & ->).
    by rewrite read_digits_stop. }
  split; [done|].
  rewrite E, parseInt_digit, <- E by lia. done.
Qed.

Lemma string_app_nil_r (s : string) : s ++ "" = s.
Proof.
  induction s as [|a s IH]; [done|].
  change (String a (s ++ "") = String a s). by rewrite IH.
Qed.

(** The decimal text of a number is read back by the model of
    [parseInt]. *)
Lemma parseInt_pretty (z : Z) : parseInt (pretty z) = Some z.
Proof.
  destruct z as [|p|p]; [done| |].
  - change (pretty (Z.pos p)) with (pretty (N.pos p)).
    rewrite <- (string_app_nil_r (pretty (N.pos p))) by done.
    by apply read_unsigned_pretty.
  - change (pretty (Z.neg p)) with ("-" ++ pretty (N.pos p)).
    rewrite <- (string_app_nil_r (pretty (N.pos p))).
    change (parseInt ("-" ++ (pretty (N.pos p) ++ "")))
      with (Z.opp <$> read_unsigned (pretty (N.pos p) ++ "")).
    by rewrite (proj1 (read_unsigned_pretty (N.pos p) "" ltac:(lia) eq_refl)).
Qed.

Lemma parseInt_pretty_suffix (n : Z) (rest : string) :
  0 < n -> no_digit_ahead rest = true ->
  parseInt (pretty n ++ rest) = Some n.
Proof.
  intros Hn Hrest. destruct n as [|p|p]; [lia| |lia].
  change (pretty (Z.pos p)) with (pretty (N.pos p)).
  by apply read_unsigned_pretty.
Qed.

Section IdsOnTheWire.
Context {F : Type}.
Implicit Types (o : Oracle) (w : World (Row F)) (fields : F).
Variable SUPABASE_URL : string.

(** X1. A row created by [POST /api/news] is read back by
    [GET /api/news/:id] under the decimal text of the id that the create
    answered, in both servers.  The id is a value of the [Int] column:
    in that range the number is printed in plain decimal digits and
    [parseInt] reads it back exactly. *)
Theorem created_row_is_read_back failed fields o o' w :
  int_column (next_id w) = true ->
  write_fails o = false ->
  table w !! next_id w = None ->
  find_fails o' = false ->
  let id := next_id w in
  let row := mkRow fields None in
  let on_disk := (run (Local.route None (Local.post_image failed fields)) o w).1 in
  let in_bucket :=
    (run (Supabase.post_image SUPABASE_URL failed fields None) o w).1 in
  run (Local.route None (Local.post_image failed fields)) o w
  = (on_disk, Sent (json (JsonRecord id row)))
  /\ run (get_by_id (pretty id)) o' on_disk
     = (logged on_disk [CallFindUnique (Some id)],
        Sent (json (JsonRecord id row)))
  /\ run (Supabase.post_image SUPABASE_URL failed fields None) o w
     = (in_bucket, Sent (json (JsonRecord id row)))
  /\ run (get_by_id (pretty id)) o' in_bucket
     = (logged in_bucket [CallFindUnique (Some id)],
        Sent (json (JsonRecord id row))).
Proof.
  intros _ Hw Hid Hf id row on_disk in_bucket.
  assert (Hl : run (Local.route None (Local.post_image failed fields)) o w
               = (mkWorld (<[id := row]> (table w)) (id + 1) (blobs w)
                    (calls w ++ [CallCreate]),
                  Sent (json (JsonRecord id row)))).
  { rewrite route_without_part.
    unfold run, Local.post_image, try_catch, bind.
    by rewrite (create_ok o w _ Hw Hid). }
  assert (Hr : run (Supabase.post_image SUPABASE_URL failed fields None) o w
               = (mkWorld (<[id := row]> (table w)) (id + 1) (blobs w)
                    (calls w ++ [CallCreate]),
                  Sent (json (JsonRecord id row)))).
  { unfold run, Supabase.post_image, try_catch, bind. cbn.
    by rewrite (create_ok o w _ Hw Hid). }
  subst on_disk in_bucket. rewrite Hl, Hr. cbn [fst].
  assert (Hget : forall w1 : World (Row F),
             table w1 !! id = Some row ->
             run (get_by_id (pretty id)) o' w1
             = (logged w1 [CallFindUnique (Some id)],
                Sent (json (JsonRecord id row)))).
  { intros w1 H1. unfold run, get_by_id, bind.
    by rewrite parseInt_pretty, findUnique_ok, H1. }
  repeat split; try apply Hget; cbn; apply lookup_insert_eq.
Qed.

(** X2. The handlers read the route parameter [req.params.id] with
    [parseInt] and do not validate it: whatever follows the digits of a
    positive id of the [Int] column is ignored, so the handlers of the
    read, update and delete routes of both servers do with the parameter
    [12abc] exactly what they do with [12].  (The parameter is the text
    express hands over, after matching and decoding the URL.) *)
Theorem id_ignores_trailing_text not_found failed (n : Z) (rest : string)
    fields (df : option Local.DiskFile) (file : option Upload) :
  0 < n ->
  int_column n = true ->
  no_digit_ahead rest = true ->
  parseInt (pretty n ++ rest) = Some n
  /\ @get_by_id (Row F) (pretty n ++ rest) = get_by_id (pretty n)
  /\ Local.put_image not_found failed (pretty n ++ rest) fields df
     = Local.put_image not_found failed (pretty n) fields df
  /\ @Local.delete_image F not_found failed (pretty n ++ rest)
     = Local.delete_image not_found failed (pretty n)
  /\ Supabase.put_image SUPABASE_URL not_found failed (pretty n ++ rest)
       fields file
     = Supabase.put_image SUPABASE_URL not_found failed (pretty n) fields file
  /\ @Supabase.delete_image SUPABASE_URL F not_found failed (pretty n ++ rest)
     = Supabase.delete_image SUPABASE_URL not_found failed (pretty n).
Proof.
  intros Hn _ Hrest.
  pose proof (parseInt_pretty_suffix n rest Hn Hrest) as H.
  pose proof (parseInt_pretty n) as H0.
  unfold get_by_id, Local.put_image, Local.delete_image, Supabase.put_image,
    Supabase.delete_image.
  by rewrite H, H0.
Qed.
End IdsOnTheWire.

Lemma created_row_is_read_back_witness :
  run (get_by_id "2") (calm 1736400000001)
    (run (Local.route None (Local.post_news news1')) (calm 1736400000000)
       local_world).1
  = (logged
       (run (Local.route None (Local.post_news news1')) (calm 1736400000000)
          local_world).1
       [CallFindUnique (Some 2)],
     Sent (json (JsonRecord 2 (mkRow news1' None)))).
Proof.
  destruct (created_row_is_read_back project_url "Failed to create news"
              news1' (calm 1736400000000) (calm 1736400000001) local_world
              eq_refl eq_refl eq_refl eq_refl) as (_ & H & _).
  exact H.
Defined.

Lemma id_ignores_trailing_text_witness :
  parseInt "12abc" = Some 12
  /\ @Local.delete_image NewsFields "News not found" "Failed to delete news"
       "12abc"
     = Local.delete_image "News not found" "Failed to delete news" "12".
Proof.
  destruct (id_ignores_trailing_text (F:=NewsFields) project_url
              "News not found" "Failed to delete news" 12 "abc" news1'
              None None ltac:(lia) eq_refl eq_refl)
    as (H1 & _ & _ & H2 & _).
  split; [exact H1|exact H2].
Defined.

(** ** Stored names and references *)

Lemma all_digits_pretty (n : N) : all_digits (pretty n) = true.
Proof.
  unfold pretty, pretty_N. case_decide; [done|].
  by apply all_digits_pretty_go.
Qed.

Lemma uri_safe_stamped (now : N) (name : string) :
  uri_safe (stamped now name) = uri_safe name.
Proof.
  unfold stamped.
  by rewrite !uri_safe_app, all_digits_safe by apply all_digits_pretty.
Qed.

(** Digits followed by a dash split in one way only. *)
Lemma digits_dash_split (s1 : string) :
  forall s2 a b : string,
    all_digits s1 = true -> all_digits s2 = true ->
    s1 ++ "-" ++ a = s2 ++ "-" ++ b -> s1 = s2 /\ a = b.
Proof.
  induction s1 as [|c1 s1 IH]; intros [|c2 s2] a b H1 H2 E.
  - by injection E.
  - rewrite append_cons in E. injection E as <- _.
    cbn in H2. by apply andb_prop in H2 as [H2 _].
  - rewrite append_cons in E. injection E as -> _.
    cbn in H1. by apply andb_prop in H1 as [H1 _].
  - rewrite !append_cons in E. injection E as -> E.
    cbn in H1, H2.
    apply andb_prop in H1 as [_ H1]. apply andb_prop in H2 as [_ H2].
    destruct (IH s2 a b H1 H2 E) as [-> ->]. done.
Qed.

(** X3. The name under which an upload is stored determines the clock value
    and the original name: two uploads collide only when both agree.  The
    same holds for the references made from the name. *)
Theorem stamped_names_collide_only_when_equal
    (url : string) (now1 now2 : N) (name1 name2 : string) :
  (stamped now1 name1 = stamped now2 name2 <-> now1 = now2 /\ name1 = name2)
  /\ (Local.getLocalFileUrl (stamped now1 name1)
      = Local.getLocalFileUrl (stamped now2 name2)
      <-> now1 = now2 /\ name1 = name2)
  /\ (Supabase.getPublicUrl url (stamped now1 name1)
      = Supabase.getPublicUrl url (stamped now2 name2)
      <-> now1 = now2 /\ name1 = name2).
Proof.
  assert (H : stamped now1 name1 = stamped now2 name2
              <-> now1 = now2 /\ name1 = name2).
  { split; [|by intros [-> ->]].
    unfold stamped. intros E.
    apply digits_dash_split in E as [E ->]; [|apply all_digits_pretty..].
    by apply (inj pretty) in E. }
  split; [done|]. split.
  - rewrite <- H. unfold Local.getLocalFileUrl.
    split; [apply (inj (String.app _))|by intros ->].
  - rewrite <- H, !getPublicUrl_eq.
    split; [|by intros ->]. intros E.
    do 2 apply (inj (String.app _)) in E. by apply encodeURI_inj.
Qed.

Section StoreRoundTrip.
Context {F : Type}.
Implicit Types (o : Oracle) (w : World (Row F)) (f : Upload).
Variable SUPABASE_URL : string.

(** X4. Deleting the public URL that [uploadToSupabase] returned asks the
    bucket to remove the escaped key, for a plain project URL.  When the
    name of the file holds only characters that [encodeURI] keeps, that
    is the key uploaded and the bucket is as it was before; when it holds
    any other character (a space, say), another key is removed and the
    blob just uploaded stays. *)
Theorem upload_then_delete_round_trip f o w :
  plain_url SUPABASE_URL = true ->
  put_fails o = false ->
  del_fails o = false ->
  let key := stamped (clock o) (originalname f) in
  blobs w !! key = None ->
  let round_trip :=
    (fileUrl <- Supabase.uploadToSupabase SUPABASE_URL f ;;
     Supabase.deleteFromSupabase SUPABASE_URL fileUrl) o w in
  round_trip
  = (mkWorld (table w) (next_id w)
       (delete (encodeURI key) (<[key := buffer f]> (blobs w)))
       (calls w ++ [CallUpload key; CallRemove (encodeURI key)]),
     inr tt)
  /\ (uri_safe (originalname f) = true ->
      round_trip = (logged w [CallUpload key; CallRemove key], inr tt))
  /\ (uri_safe (originalname f) = false ->
      blobs round_trip.1 !! key = Some (buffer f)).
Proof.
  intros Hurl Hp Hd key Hk round_trip.
  assert (E : round_trip
              = (mkWorld (table w) (next_id w)
                   (delete (encodeURI key) (<[key := buffer f]> (blobs w)))
                   (calls w ++ [CallUpload key; CallRemove (encodeURI key)]),
                 inr tt)).
  { unfold round_trip, bind.
    rewrite (uploadToSupabase_ok SUPABASE_URL o w f Hp Hk).
    rewrite deleteFromSupabase_ok by done.
    rewrite public_url_key by done. f_equal. world_eq. }
  split; [done|]. rewrite E. unfold key. split.
  - intros Hsafe. rewrite encodeURI_safe by by rewrite uri_safe_stamped.
    by rewrite delete_insert_id.
  - intros Hsafe. cbn.
    rewrite lookup_delete_ne; [apply lookup_insert_eq|].
    intros Heq. apply encodeURI_fixed in Heq.
    rewrite uri_safe_stamped in Heq. congruence.
Qed.

(** X5. On the local-disk server, deleting the reference made by
    [getLocalFileUrl] from the name multer chose unlinks exactly the file
    multer wrote: the disk is as it was before. *)
Theorem write_then_delete_restores_disk f o w :
  put_fails o = false ->
  del_fails o = false ->
  let path := "uploads/" ++ stamped (clock o) (originalname f) in
  blobs w !! path = None ->
  (file <- Local.upload_single (Some f) ;;
   match file with
   | Some stored =>
       Local.deleteLocalFile (Local.getLocalFileUrl (Local.filename stored))
   | None => ret tt
   end) o w
  = (logged w [CallWriteFile path; CallUnlink path], inr tt).
Proof.
  intros Hp Hd path Hk. unfold bind.
  rewrite (upload_single_ok o w f Hp). cbn.
  rewrite deleteLocalFile_ok by done.
  f_equal. unfold logged, with_blobs. cbn.
  by rewrite delete_insert_id, <- app_assoc.
Qed.
End StoreRoundTrip.

Lemma upload_then_delete_round_trip_witness :
  (fileUrl <- Supabase.uploadToSupabase project_url photo ;;
   Supabase.deleteFromSupabase project_url fileUrl)
    (calm 1736400000000) (bucket_world news1')
  = (logged (bucket_world news1')
       [CallUpload "1736400000000-photo2.png";
        CallRemove "1736400000000-photo2.png"],
     inr tt)
  /\ (fileUrl <- Supabase.uploadToSupabase project_url spaced_photo ;;
      Supabase.deleteFromSupabase project_url fileUrl)
       (calm 1736400000000) (bucket_world news1')
     = (mkWorld (table (bucket_world news1')) 2
          (<["1736400000000-my photo.png" := buffer spaced_photo]>
             (blobs (bucket_world news1')))
          [CallUpload "1736400000000-my photo.png";
           CallRemove "1736400000000-my%20photo.png"],
        inr tt).
Proof.
  split.
  - destruct (upload_then_delete_round_trip project_url photo
                (calm 1736400000000) (bucket_world news1') eq_refl eq_refl
                eq_refl ltac:(by vm_compute)) as (_ & H & _).
    exact (H eq_refl).
  - destruct (upload_then_delete_round_trip project_url spaced_photo
                (calm 1736400000000) (bucket_world news1') eq_refl eq_refl
                eq_refl ltac:(by vm_compute)) as (H & _).
    etransitivity; [exact H|]. by vm_compute.
Defined.

Lemma write_then_delete_restores_disk_witness :
  (file <- Local.upload_single (Some photo) ;;
   match file with
   | Some stored =>
       Local.deleteLocalFile (Local.getLocalFileUrl (Local.filename stored))
   | None => ret tt
   end) (calm 1736400000000) local_world
  = (logged local_world
       [CallWriteFile "uploads/1736400000000-photo2.png";
        CallUnlink "uploads/1736400000000-photo2.png"],
     inr tt).
Proof.
  exact (write_then_delete_restores_disk photo (calm 1736400000000)
           local_world eq_refl eq_refl ltac:(by vm_compute)).
Defined.

(** ** Rows without an image *)

Lemma when_image_falsy {R} (image : option string) (k : string -> M R unit) :
  truthy (of_column image) = false -> when_image image k = ret tt.
Proof. destruct image as [ref|]; [|done]. cbn. by intros ->. Qed.

Section NoImage.
Context {F : Type}.
Implicit Types (o : Oracle) (w : World (Row F)) (fields : F) (f : Upload).
Variable SUPABASE_URL : string.

(** X6. An update with a file on a row whose image is null or empty stores
    the blob and sets the reference without attempting any deletion, in
    both servers. *)
Theorem first_image_needs_no_deletion
    not_found failed id n r fields f o w :
  parseInt id = Some n ->
  find_fails o = false ->
  put_fails o = false ->
  write_fails o = false ->
  table w !! n = Some r ->
  truthy (of_column (row_image r)) = false ->
  let name := stamped (clock o) (originalname f) in
  blobs w !! name = None ->
  let path := "uploads/" ++ name in
  let local_row := mkRow fields (Some (Local.getLocalFileUrl name)) in
  let bucket_row :=
    mkRow fields (Some (Supabase.getPublicUrl SUPABASE_URL name)) in
  run (Local.route (Some f) (Local.put_image not_found failed id fields)) o w
  = (mkWorld (<[n := local_row]> (table w)) (next_id w)
       (<[path := buffer f]> (blobs w))
       (calls w ++ [CallWriteFile path; CallFindUnique (Some n);
                    CallUpdate (Some n)]),
     Sent (json (JsonRecord n local_row)))
  /\ run (Supabase.put_image SUPABASE_URL not_found failed id fields (Some f))
       o w
     = (mkWorld (<[n := bucket_row]> (table w)) (next_id w)
          (<[name := buffer f]> (blobs w))
          (calls w ++ [CallFindUnique (Some n); CallUpload name;
                       CallUpdate (Some n)]),
        Sent (json (JsonRecord n bucket_row))).
Proof.
  intros Hid Hf Hp Hw Hn Himg name Hk path local_row bucket_row.
  split.
  - unfold run, Local.route, Local.put_image, try_catch, bind.
    rewrite (upload_single_ok o w f Hp), Hid. cbn.
    rewrite findUnique_ok by done. cbn. rewrite Hn. cbn.
    rewrite when_image_falsy by done. cbn.
    erewrite update_ok by (done || apply Hn). cbn. f_equal. world_eq.
  - unfold run, Supabase.put_image, try_catch, bind.
    rewrite Hid, findUnique_ok by done. cbn. rewrite Hn. cbn.
    rewrite (uploadToSupabase_ok SUPABASE_URL) by done. cbn.
    rewrite when_image_falsy by done. cbn.
    erewrite update_ok by (done || apply Hn). cbn.
    unfold js_or. rewrite public_url_truthy. cbn. f_equal. world_eq.
Qed.

(** X7. The delete of a row whose image is null or empty calls no store: the
    row is removed and the blobs stay, in both servers. *)
Theorem delete_without_image_skips_store not_found failed id n r o w :
  parseInt id = Some n ->
  find_fails o = false ->
  write_fails o = false ->
  table w !! n = Some r ->
  truthy (of_column (row_image r)) = false ->
  let done_ :=
    (mkWorld (delete n (table w)) (next_id w) (blobs w)
       (calls w ++ [CallFindUnique (Some n); CallDelete (Some n)]),
     Sent (mkResponse 204 NoBody)) in
  run (Local.delete_image not_found failed id) o w = done_
  /\ run (Supabase.delete_image SUPABASE_URL not_found failed id) o w = done_.
Proof.
  intros Hid Hf Hw Hn Himg done_.
  unfold run, Local.delete_image, Supabase.delete_image, try_catch, bind.
  rewrite Hid, findUnique_ok by done. cbn. rewrite Hn. cbn.
  rewrite !when_image_falsy by done. cbn.
  erewrite !delete_row_ok by (done || apply Hn). cbn.
  split; f_equal; world_eq.
Qed.
End NoImage.

(** ** The other shapes of the update and delete routes *)

Section OtherShapes.
Context {F : Type}.
Implicit Types (o : Oracle) (w : World (Row F)) (fields : F) (f : Upload).

Lemma delete_row_cases {R} o (w : World R) id :
  (exists e, delete_row id o w = (logged w [CallDelete id], inl e))
  \/ (exists n r, id = Some n /\ table w !! n = Some r
                  /\ write_fails o = false).
Proof.
  unfold delete_row, bind, record, ask, get, throw. cbn.
  destruct (write_fails o); [by eauto|].
  destruct id as [n|]; [|by eauto].
  destruct (table w !! n) eqn:E; [right|left]; by eauto.
Qed.

(** X8. [index.js] spells "keep the stored image unless a file came" in two
    ways: [newImage || existing.image] with [newImage] starting as [null]
    (news, hero, ...) and [newImage] starting as [existing.image] (galeri,
    kalender).  The two handlers agree on every request. *)
Theorem keep_or_replace_spellings_agree
    not_found failed id fields (file : option Local.DiskFile) o w :
  Local.put_image_let not_found failed id fields file o w
  = Local.put_image not_found failed id fields file o w.
Proof.
  unfold Local.put_image_let, Local.put_image, try_catch, bind.
  destruct (findUnique (parseInt id) o w) as [w1 [e|[[n r]|]]];
    [reflexivity| |reflexivity].
  destruct file as [df|]; [|reflexivity].
  destruct (when_image (row_image r) Local.deleteLocalFile o w1)
    as [w2 [e|[]]]; reflexivity.
Qed.

(** X9. The sejarah routes of [index.js] have no [try]: when the unlink of the
    previous image is refused, the error escapes the handler instead of
    being answered, the row is as before, and on an update the file that
    multer wrote stays. *)
Theorem sejarah_errors_escape id n r ref fields f o w :
  parseInt id = Some n ->
  find_fails o = false ->
  put_fails o = false ->
  del_fails o = true ->
  table w !! n = Some r ->
  row_image r = Some ref ->
  ref <> "" ->
  let path := "uploads/" ++ stamped (clock o) (originalname f) in
  let old_path := strip_leading_slash ref in
  run (Local.route (Some f) (Local.put_sejarah id fields)) o w
  = (mkWorld (table w) (next_id w) (<[path := buffer f]> (blobs w))
       (calls w ++ [CallWriteFile path; CallFindUnique (Some n);
                    CallUnlink old_path]),
     Escaped (JsError "Failed to delete local file"))
  /\ Local.delete_sejarah id o w
     = (logged w [CallFindUnique (Some n); CallUnlink old_path],
        inl (JsError "Failed to delete local file")).
Proof.
  intros Hid Hf Hp Hd Hn Href Hne path old_path. split.
  - unfold run, Local.route, Local.put_sejarah, bind.
    rewrite (upload_single_ok o w f Hp), Hid. cbn.
    rewrite findUnique_ok by done. cbn. rewrite Hn. cbn.
    rewrite Href, when_image_truthy by done.
    rewrite deleteLocalFile_fault by done. cbn. f_equal. world_eq.
  - unfold Local.delete_sejarah, bind.
    rewrite Hid, findUnique_ok by done. cbn. rewrite Hn. cbn.
    rewrite Href, when_image_truthy by done.
    rewrite deleteLocalFile_fault by done. cbn. f_equal. world_eq.
Qed.

(** X10. In the object-store server the create routes of
    strukturOrganisasi and staffAndTeacher never touch the bucket,
    whatever the request; a create
    with a file stores the row with the reference [/uploads/undefined],
    the same for every file. *)
Theorem create_with_file_stores_no_blob fields (file : option Upload) f o w :
  blobs (run (Supabase.post_strukturOrganisasi fields file) o w).1 = blobs w
  /\ blobs (run (Supabase.post_staffandteachers fields file) o w).1 = blobs w
  /\ (write_fails o = false ->
      table w !! next_id w = None ->
      let row := mkRow fields (Some "/uploads/undefined") in
      let stored :=
        mkWorld (<[next_id w := row]> (table w)) (next_id w + 1) (blobs w)
          (calls w ++ [CallCreate]) in
      run (Supabase.post_strukturOrganisasi fields (Some f)) o w
      = (stored, Sent (json (JsonRecord (next_id w) row)))
      /\ run (Supabase.post_staffandteachers fields (Some f)) o w
         = (stored, Sent (mkResponse 201 (JsonRecord (next_id w) row)))).
Proof.
  unfold run, Supabase.post_strukturOrganisasi, Supabase.post_staffandteachers,
    try_catch, bind.
  split; [|split].
  - destruct (create_cases o w
                (new_row fields
                   match file with
                   | Some f0 => JsStr (Supabase.uploads_filename f0)
                   | None => JsNull
                   end)) as [[e ->]| ->]; done.
  - destruct (create_cases o w
                (new_row fields
                   match file with
                   | Some f0 => JsStr (Supabase.uploads_filename f0)
                   | None => JsNull
                   end)) as [[e ->]| ->]; done.
  - intros Hw Hid. cbn.
    erewrite !create_ok by done. done.
Qed.
End OtherShapes.

(** X11. [DELETE /api/contacts/:id] has two answers only.  When the id
    parses, a row has it and the database accepts the call, the row is
    removed and answered with 200.  In every other case -- the id is not
    a number, no row has it, or the database rejects the call -- the
    answer is 404 and no row is changed; the route never answers 500 and
    no error escapes. *)
Theorem delete_contact_answers_200_or_404 {R} (id : string) (o : Oracle)
    (w : World R) :
  (forall (n : Z) (r : R),
      parseInt id = Some n -> table w !! n = Some r ->
      write_fails o = false ->
      run (delete_contact id) o w
      = (mkWorld (delete n (table w)) (next_id w) (blobs w)
           (calls w ++ [CallDelete (Some n)]),
         Sent (json (JsonRecord n r))))
  /\ (parseInt id = None
      \/ write_fails o = true
      \/ (exists n, parseInt id = Some n /\ table w !! n = None) ->
      run (delete_contact id) o w
      = (logged w [CallDelete (parseInt id)],
         Sent (mkResponse 404
                 (JsonError "Contact not found or failed to delete" None)))).
Proof.
  unfold run, delete_contact, try_catch, bind. split.
  - intros n r Hid Hn Hw. by rewrite Hid, (delete_row_ok o w n r Hw Hn).
  - intros [Hid|[Hw|(n & Hid & Hn)]].
    + unfold delete_row, bind, record, ask, get, throw. cbn.
      rewrite Hid. by destruct (write_fails o).
    + by rewrite delete_row_fault.
    + destruct (write_fails o) eqn:Hw; [by rewrite delete_row_fault|].
      by rewrite Hid, delete_row_absent.
Qed.

(** ** Announcements (object-store server) *)

Section AnnouncementRoutes.
Variable date_parses : string -> bool.
Implicit Types (o : Oracle) (w : World AnnouncementFields)
  (body : Supabase.AnnouncementBody).

(** X12. [POST /api/announcements] answers 400 without calling the database
    exactly when the title, the description or the date is missing or
    empty, or the date does not parse; otherwise the create is issued with
    the three texts. *)
Theorem post_announcement_validates body o w :
  let title := Supabase.body_title body in
  let description := Supabase.body_description body in
  let publishedDate := Supabase.body_publishedDate body in
  let valid :=
    truthy title && truthy description && truthy publishedDate
    && date_parses (Supabase.as_text publishedDate) in
  (valid = false ->
   run (Supabase.post_announcement date_parses body) o w
   = (w, Sent (mkResponse 400 (JsonError "Invalid or missing fields" None))))
  /\ (valid = true ->
      write_fails o = false ->
      table w !! next_id w = None ->
      let row :=
        mkAnnouncement (Supabase.as_text title) (Supabase.as_text description)
          (Supabase.as_text publishedDate) in
      run (Supabase.post_announcement date_parses body) o w
      = (mkWorld (<[next_id w := row]> (table w)) (next_id w + 1) (blobs w)
           (calls w ++ [CallCreate]),
         Sent (json (JsonRecord (next_id w) row)))).
Proof.
  intros title description publishedDate valid.
  unfold run, Supabase.post_announcement.
  fold title description publishedDate.
  subst valid.
  destruct (truthy title), (truthy description), (truthy publishedDate),
    (date_parses (Supabase.as_text publishedDate)); cbn; split; try done.
  intros _ Hw Hid. unfold try_catch, bind.
  by rewrite (create_ok o w _ Hw Hid).
Qed.

(** X13. [PUT /api/announcements/:id] does not check that the date parses: a
    request with all three fields and a date that does not parse, which
    the create route refuses with 400, reaches [update] with a null date
    and is answered 500; the row is left as it was. *)
Theorem put_announcement_unparsed_date id body o w :
  truthy (Supabase.body_title body) = true ->
  truthy (Supabase.body_description body) = true ->
  truthy (Supabase.body_publishedDate body) = true ->
  date_parses (Supabase.as_text (Supabase.body_publishedDate body)) = false ->
  run (Supabase.put_announcement date_parses id body) o w
  = (logged w [CallUpdate (parseInt id)],
     Sent (mkResponse 500 (JsonError "Error updating announcement" None)))
  /\ run (Supabase.post_announcement date_parses body) o w
     = (w, Sent (mkResponse 400 (JsonError "Invalid or missing fields" None))).
Proof.
  intros Ht Hd Hp Hdate.
  unfold run, Supabase.put_announcement, Supabase.post_announcement.
  by rewrite Ht, Hd, Hp, Hdate.
Qed.
End AnnouncementRoutes.

(** ** Authentication *)

Lemma split_on_no_space (t : string) :
  no_space t = true -> split_on " " t = [t].
Proof.
  induction t as [|a t IH]; [done|]. cbn. intros H.
  apply andb_prop in H as [Ha Ht]. apply negb_true_iff in Ha.
  rewrite Ha, IH; done.
Qed.

Lemma split_on_word (a b : string) :
  no_space a = true -> split_on " " (a ++ " " ++ b) = a :: split_on " " b.
Proof.
  induction a as [|c a IH]; [done|]. intros H. cbn in H.
  apply andb_prop in H as [Hc Ha]. apply negb_true_iff in Hc.
  rewrite append_cons. cbn [split_on]. rewrite Hc, IH; done.
Qed.

(** Closes the case analyses below: equations between constructors and
    existentials over one token or one row. *)
Ltac cases_done :=
  repeat split; intros;
  repeat match goal with
         | H : _ /\ _ |- _ => destruct H
         | H : exists _, _ |- _ => destruct H
         | H : _ \/ _ |- _ => destruct H
         end;
  simplify_eq/=; eauto 8; try congruence.

Section Authentication.
Variable verify : string -> option Auth.Claims.
Variable compare : string -> string -> bool.
Variable sign : Z -> N -> option string.

Lemma bearer_second_word (scheme token tail : string) :
  no_space scheme = true ->
  no_space token = true ->
  tail = "" \/ (exists more, tail = " " ++ more) ->
  Auth.bearer (Some (scheme ++ " " ++ token ++ tail)) = Some token.
Proof.
  intros Hs Ht Htail. unfold Auth.bearer.
  rewrite split_on_word by done.
  destruct Htail as [->|[more ->]].
  - by rewrite string_app_nil_r, split_on_no_space.
  - by rewrite split_on_word.
Qed.

(** X14. [authenticateToken] takes the second space-separated word of the
    header as the token and looks at nothing else: the first word is not
    required to be [Bearer], and whatever follows a second space is
    ignored. *)
Theorem authenticateToken_reads_second_word
    (scheme token tail : string) (now : N) :
  no_space scheme = true ->
  no_space token = true ->
  tail = "" \/ (exists more, tail = " " ++ more) ->
  Auth.authenticateToken verify (Some (scheme ++ " " ++ token ++ tail)) now
  = Auth.authenticateToken verify (Some ("Bearer " ++ token)) now.
Proof.
  intros Hs Ht Htail. unfold Auth.authenticateToken.
  rewrite (bearer_second_word scheme token tail) by done.
  replace ("Bearer " ++ token) with ("Bearer" ++ " " ++ token ++ "")
    by (by rewrite string_app_nil_r).
  by rewrite (bearer_second_word "Bearer" token "") by auto.
Qed.

(** X15. The middleware calls [next] exactly when the header has a non-empty
    second word that [jwt.verify] accepts and whose [exp], if present, is
    not in the past; a missing header or token is answered 401 and
    everything else 403. *)
Theorem authenticateToken_lets_through
    (authorization : option string) (now : N) (user : Auth.Claims) :
  (Auth.authenticateToken verify authorization now = Auth.Next user
   <-> exists token,
         Auth.bearer authorization = Some token /\ token <> ""
         /\ verify token = Some user /\ Auth.expired user now = false)
  /\ (Auth.authenticateToken verify authorization now
      = Auth.Deny 401 "Access denied"
      <-> Auth.bearer authorization = None
          \/ Auth.bearer authorization = Some "").
Proof.
  unfold Auth.authenticateToken.
  destruct (Auth.bearer authorization) as [token|]; cbn;
    [|cases_done].
  destruct (String.eqb token "") eqn:E; cbn.
  { apply String.eqb_eq in E as ->. cases_done. }
  apply String.eqb_neq in E.
  destruct (verify token) as [decoded|] eqn:V; [|cases_done].
  destruct (Auth.expired decoded now) eqn:X; cases_done.
Qed.

(** X16. [POST /admin/login] answers with a token exactly when the username
    exists, [bcrypt.compare] accepts the password and the token can be
    signed; an unknown username and a wrong password get the same answer,
    401 with one and the same body. *)
Theorem login_answers (admins : gmap string Auth.Admin) (db_fails : bool)
    (now : N) (name pass : string) :
  let answer := Auth.login compare sign admins db_fails now name pass in
  (forall token,
      answer = mkAnswer 200 (JsonToken token)
      <-> db_fails = false
          /\ exists admin,
               admins !! name = Some admin
               /\ compare pass (Auth.password admin) = true
               /\ sign (Auth.admin_id admin) now = Some token)
  /\ (answer = Auth.invalid_credentials
      <-> db_fails = false
          /\ (admins !! name = None
              \/ exists admin,
                   admins !! name = Some admin
                   /\ compare pass (Auth.password admin) = false)).
Proof.
  intros answer. subst answer. unfold Auth.login, Auth.invalid_credentials.
  destruct db_fails; [cases_done|].
  destruct (admins !! name) as [admin|] eqn:Hadmin; [|cases_done].
  destruct (compare pass (Auth.password admin)) eqn:Hc; cbn;
    [|cases_done].
  destruct (sign (Auth.admin_id admin) now) as [tok|] eqn:Hs; cases_done.
Qed.
End Authentication.

(** ** Ownership of blobs *)

Section Ownership.
Context {F : Type}.
Variable resolve : string -> string.
Implicit Types (w : World (Row F)) (fields : F).

Lemma truthy_column (c : option string) :
  truthy (of_column c) = true <-> exists ref, c = Some ref /\ ref <> "".
Proof.
  destruct c as [ref|]; cbn.
  - rewrite negb_true_iff, String.eqb_neq. split; [by eauto|].
    by intros (? & [= <-] & ?).
  - split; [done|]. by intros (? & ? & _).
Qed.

(** Only the table and the blobs matter. *)
Lemma well_owned_ext w w' :
  table w' = table w -> blobs w' = blobs w ->
  well_owned resolve w -> well_owned resolve w'.
Proof.
  intros Ht Hb [Hl He]. split.
  - intros n r ref. rewrite Ht, Hb. apply Hl.
  - intros n m r r' ref ref'. rewrite Ht. apply He.
Qed.

(** A row is written with a reference to a blob stored under a fresh
    key. *)
Lemma well_owned_store w n fields ref bytes i cs :
  well_owned resolve w ->
  blobs w !! resolve ref = None ->
  well_owned resolve
    (mkWorld (<[n := mkRow fields (Some ref)]> (table w)) i
       (<[resolve ref := bytes]> (blobs w)) cs).
Proof.
  intros [Hl He] Hfresh. split.
  - intros m r ref' Hm Hr Hne. cbn in *.
    apply lookup_insert_is_Some'.
    apply lookup_insert_Some in Hm as [[<- <-]|[Hnm Hm]].
    + cbn in Hr. injection Hr as <-. by left.
    + right. by apply (Hl m r).
  - intros m1 m2 r1 r2 ref1 ref2 H1 H2 Hr1 Hr2 Hne1 Hne2 E. cbn in *.
    apply lookup_insert_Some in H1 as [[<- <-]|[Hn1 H1]];
      apply lookup_insert_Some in H2 as [[<- <-]|[Hn2 H2]]; [done|..].
    + cbn in Hr1. injection Hr1 as <-.
      destruct (Hl m2 r2 ref2 H2 Hr2 Hne2) as [b Hb]. congruence.
    + cbn in Hr2. injection Hr2 as <-.
      destruct (Hl m1 r1 ref1 H1 Hr1 Hne1) as [b Hb]. congruence.
    + by apply (He m1 m2 r1 r2 ref1 ref2).
Qed.

(** A blob that no row leads to is removed. *)
Lemma well_owned_drop w key i cs :
  well_owned resolve w ->
  (forall m r ref, table w !! m = Some r -> row_image r = Some ref ->
                   ref <> "" -> resolve ref <> key) ->
  well_owned resolve (mkWorld (table w) i (delete key (blobs w)) cs).
Proof.
  intros [Hl He] Hfree. split; [|done].
  intros m r ref Hm Hr Hne. cbn in *.
  apply lookup_delete_is_Some. split.
  - intros E. by apply (Hfree m r ref).
  - by apply (Hl m r).
Qed.

(** A row is rewritten with the reference it has. *)
Lemma well_owned_keep w n r fields i cs :
  well_owned resolve w ->
  table w !! n = Some r ->
  well_owned resolve
    (mkWorld (<[n := mkRow fields (row_image r)]> (table w)) i (blobs w) cs).
Proof.
  intros [Hl He] Hn.
  assert (Hrow : forall m r',
             <[n := mkRow fields (row_image r)]> (table w) !! m = Some r' ->
             exists r0, table w !! m = Some r0 /\ row_image r0 = row_image r').
  { intros m r' Hm. apply lookup_insert_Some in Hm as [[<- <-]|[_ Hm]];
      eauto. }
  split.
  - intros m r' ref Hm Hr Hne. cbn in *.
    destruct (Hrow m r' Hm) as (r0 & H0 & E). apply (Hl m r0); congruence.
  - intros m1 m2 r1 r2 ref1 ref2 H1 H2 Hr1 Hr2 Hne1 Hne2 E. cbn in *.
    destruct (Hrow m1 r1 H1) as (a1 & A1 & E1).
    destruct (Hrow m2 r2 H2) as (a2 & A2 & E2).
    apply (He m1 m2 a1 a2 ref1 ref2); congruence.
Qed.

(** A row is written without a reference. *)
Lemma well_owned_plain w n fields i cs :
  well_owned resolve w ->
  well_owned resolve
    (mkWorld (<[n := mkRow fields None]> (table w)) i (blobs w) cs).
Proof.
  intros [Hl He]. split.
  - intros m r ref Hm Hr Hne. cbn in *.
    apply lookup_insert_Some in Hm as [[<- <-]|[_ Hm]]; [done|].
    by apply (Hl m r).
  - intros m1 m2 r1 r2 ref1 ref2 H1 H2 Hr1 Hr2 Hne1 Hne2 E. cbn in *.
    apply lookup_insert_Some in H1 as [[<- <-]|[_ H1]]; [done|].
    apply lookup_insert_Some in H2 as [[<- <-]|[_ H2]]; [done|].
    by apply (He m1 m2 r1 r2 ref1 ref2).
Qed.

(** A row is removed, together with its blob or without. *)
Lemma well_owned_remove w n r i cs :
  well_owned resolve w ->
  table w !! n = Some r ->
  well_owned resolve (mkWorld (delete n (table w)) i (blobs w) cs)
  /\ forall ref, row_image r = Some ref -> ref <> "" ->
       well_owned resolve
         (mkWorld (delete n (table w)) i (delete (resolve ref) (blobs w)) cs).
Proof.
  intros [Hl He] Hn.
  assert (Hsub : well_owned resolve
                   (mkWorld (delete n (table w)) i (blobs w) cs)).
  { split.
    - intros m r' ref Hm Hr Hne. cbn in *.
      apply lookup_delete_Some in Hm as [_ Hm]. by apply (Hl m r').
    - intros m1 m2 r1 r2 ref1 ref2 H1 H2 Hr1 Hr2 Hne1 Hne2 E. cbn in *.
      apply lookup_delete_Some in H1 as [_ H1].
      apply lookup_delete_Some in H2 as [_ H2].
      by apply (He m1 m2 r1 r2 ref1 ref2). }
  split; [done|]. intros ref Hr Hne.
  pose proof (well_owned_drop (mkWorld (delete n (table w)) i (blobs w) cs)
                (resolve ref) i cs Hsub) as Hdrop.
  cbn in Hdrop. apply Hdrop.
  intros m r' ref' Hm Hr' Hne' E.
  apply lookup_delete_Some in Hm as [Hnm Hm].
  apply Hnm. by apply (He n m r r' ref ref').
Qed.
End Ownership.

Section OwnershipOfNews.
Context {F : Type}.
Variable SUPABASE_URL : string.
Implicit Types (o : Oracle) (w : World (Row F)) (fields : F).

Local Notation "'resolve'" :=
  (remove_first (Supabase.public_prefix SUPABASE_URL)) (only parsing).

Lemma resolve_safe_url key :
  plain_url SUPABASE_URL = true ->
  uri_safe key = true ->
  resolve (Supabase.getPublicUrl SUPABASE_URL key) = key.
Proof. intros Hurl Hkey. by rewrite public_url_key, encodeURI_safe. Qed.

(** X17. In the object-store server, when the project URL is plain, the
    name of an uploaded file holds only characters that [encodeURI]
    keeps, and the database and the bucket accept every call, the create,
    update and delete routes of news (and the routes of the same text)
    keep the ownership of blobs: if every row with a non-empty reference
    led to a stored blob and no two rows led to the same blob before the
    request, the same holds after it, whatever the id and with or
    without a file.  References lead to blobs as [deleteFromSupabase]
    reads them. *)
Theorem accepted_requests_keep_ownership
    not_found failed id fields (file : option Upload) o w :
  plain_url SUPABASE_URL = true ->
  (forall f, file = Some f -> uri_safe (originalname f) = true) ->
  find_fails o = false ->
  write_fails o = false ->
  put_fails o = false ->
  del_fails o = false ->
  table w !! next_id w = None ->
  (forall f, file = Some f ->
             blobs w !! stamped (clock o) (originalname f) = None) ->
  well_owned resolve w ->
  well_owned resolve
    (run (Supabase.post_image SUPABASE_URL failed fields file) o w).1
  /\ well_owned resolve
       (run (Supabase.put_image SUPABASE_URL not_found failed id fields file)
          o w).1
  /\ well_owned resolve
       (run (Supabase.delete_image SUPABASE_URL not_found failed id) o w).1.
Proof.
  intros Hurl Hsafe Hf Hw Hp Hd Hid Hfresh Hown.
  assert (Hkey : forall f, file = Some f ->
                   resolve (Supabase.getPublicUrl SUPABASE_URL
                              (stamped (clock o) (originalname f)))
                   = stamped (clock o) (originalname f)).
  { intros f Hfile. apply resolve_safe_url; [done|].
    by rewrite uri_safe_stamped, (Hsafe f Hfile). }
  split; [|split].
  - unfold run, Supabase.post_image, try_catch, bind.
    destruct file as [f|].
    + specialize (Hfresh f eq_refl). specialize (Hkey f eq_refl).
      rewrite (uploadToSupabase_ok SUPABASE_URL o w f Hp Hfresh). cbn.
      rewrite create_ok by done. cbn.
      rewrite <- Hkey at 2.
      apply well_owned_store; [done|]. by rewrite Hkey.
    + cbn. rewrite create_ok by done. cbn. by apply well_owned_plain.
  - unfold run, Supabase.put_image, try_catch, bind.
    destruct (findUnique_cases o w (parseInt id))
      as [[e ->]|(n & -> & _ & ->)]; [by apply (well_owned_ext _ w)|].
    destruct (table w !! n) as [r|] eqn:Hn; cbn;
      [|by apply (well_owned_ext _ w)].
    destruct file as [f|]; cbn.
    + specialize (Hfresh f eq_refl). specialize (Hkey f eq_refl).
      rewrite (uploadToSupabase_ok SUPABASE_URL) by done. cbn.
      set (key := stamped (clock o) (originalname f)) in *.
      assert (Hstore : forall i cs,
                 well_owned resolve
                   (mkWorld
                      (<[n := mkRow fields
                                (Some (Supabase.getPublicUrl SUPABASE_URL key))]>
                         (table w)) i
                      (<[key := buffer f]> (blobs w)) cs)).
      { intros i cs. rewrite <- Hkey at 2.
        apply well_owned_store; [done|]. by rewrite Hkey. }
      destruct (truthy (of_column (row_image r))) eqn:Himg.
      * apply truthy_column in Himg as (old & Hold & Hne).
        rewrite Hold, when_image_truthy by done.
        rewrite deleteFromSupabase_ok by done. cbn.
        erewrite update_ok by (done || apply Hn). cbn.
        unfold js_or. rewrite public_url_truthy. cbn.
        unfold with_table, with_blobs, logged, set_row. cbn.
        match goal with
        | |- well_owned _ (mkWorld ?t ?i (delete ?k ?b) ?cs) =>
            pose proof (well_owned_drop resolve (mkWorld t i b cs) k i cs
                          (Hstore i cs)) as Hdrop
        end.
        cbn in Hdrop. apply Hdrop.
        intros m r' ref' Hm Hr' Hne' E.
        destruct Hown as [Hl He].
        apply lookup_insert_Some in Hm as [[<- <-]|[Hnm Hm]].
        -- cbn in Hr'. injection Hr' as <-.
           rewrite Hkey in E.
           destruct (Hl n r old Hn Hold Hne) as [b Hb]. congruence.
        -- apply Hnm. by apply (He n m r r' old ref').
      * rewrite when_image_falsy by done. cbn.
        erewrite update_ok by (done || apply Hn). cbn.
        unfold js_or. rewrite public_url_truthy. cbn. apply Hstore.
    + erewrite update_ok by (done || apply Hn).
      unfold with_table, logged, set_row. cbn. rewrite write_column.
      by apply well_owned_keep.
  - unfold run, Supabase.delete_image, try_catch, bind.
    destruct (findUnique_cases o w (parseInt id))
      as [[e ->]|(n & -> & _ & ->)]; [by apply (well_owned_ext _ w)|].
    destruct (table w !! n) as [r|] eqn:Hn; cbn;
      [|by apply (well_owned_ext _ w)].
    destruct (well_owned_remove resolve w n r (next_id w)
                ((calls w ++ [CallFindUnique (Some n)])
                 ++ [CallDelete (Some n)]) Hown Hn) as [Hplain _].
    destruct (truthy (of_column (row_image r))) eqn:Himg.
    + apply truthy_column in Himg as (ref & Href & Hne).
      rewrite Href, when_image_truthy by done.
      rewrite deleteFromSupabase_ok by done. cbn.
      erewrite delete_row_ok by (done || apply Hn). cbn.
      by apply (well_owned_remove resolve w n r).
    + rewrite when_image_falsy by done. cbn.
      erewrite delete_row_ok by (done || apply Hn). cbn. apply Hplain.
Qed.
End OwnershipOfNews.

Section OwnershipOnDisk.
Context {F : Type}.
Implicit Types (o : Oracle) (w : World (Row F)) (fields : F).

Lemma resolve_local_url name :
  strip_leading_slash (Local.getLocalFileUrl name) = "uploads/" ++ name.
Proof. reflexivity. Qed.

(** X18. On the local-disk server, for the whole routes (multer first):
    when every call is accepted and the name multer picks is not taken,
    create, update and delete of news keep the ownership of the files
    below [uploads/]: every row with a non-empty reference leads to a
    file, and no two rows lead to the same file. *)
Theorem accepted_requests_keep_files_owned
    not_found failed id fields (part : option Upload) o w :
  find_fails o = false ->
  write_fails o = false ->
  put_fails o = false ->
  del_fails o = false ->
  table w !! next_id w = None ->
  (forall f, part = Some f ->
             blobs w !! ("uploads/" ++ stamped (clock o) (originalname f))
             = None) ->
  well_owned strip_leading_slash w ->
  well_owned strip_leading_slash
    (run (Local.route part (Local.post_image failed fields)) o w).1
  /\ well_owned strip_leading_slash
       (run (Local.route part (Local.put_image not_found failed id fields))
          o w).1
  /\ well_owned strip_leading_slash
       (run (Local.delete_image not_found failed id) o w).1.
Proof.
  intros Hf Hw Hp Hd Hid Hfresh Hown.
  assert (Hstore : forall f i cs,
             part = Some f ->
             well_owned strip_leading_slash
               (mkWorld
                  (<[i := mkRow fields
                            (Some (Local.getLocalFileUrl
                                     (stamped (clock o) (originalname f))))]>
                     (table w)) (next_id w)
                  (<["uploads/" ++ stamped (clock o) (originalname f)
                     := buffer f]> (blobs w)) cs)).
  { intros f i cs Hpart.
    rewrite <- (resolve_local_url (stamped (clock o) (originalname f))).
    apply well_owned_store; [done|]. by apply Hfresh. }
  split; [|split].
  - unfold run, Local.route, Local.post_image, try_catch, bind.
    destruct part as [f|].
    + rewrite (upload_single_ok o w f Hp). cbn.
      rewrite create_ok by done.
      eapply well_owned_ext; [| |apply (Hstore f (next_id w) [] eq_refl)];
        reflexivity.
    + cbn. rewrite create_ok by done. cbn. by apply well_owned_plain.
  - unfold run, Local.route, Local.put_image, try_catch, bind.
    destruct part as [f|].
    + rewrite (upload_single_ok o w f Hp). cbn.
      set (name := stamped (clock o) (originalname f)) in *.
      set (w1 := with_blobs _ _).
      assert (Hown1 : well_owned strip_leading_slash w1).
      { destruct Hown as [Hl He]. split; [|done].
        intros m r ref Hm Hr Hne. cbn.
        apply lookup_insert_is_Some'. right. by apply (Hl m r). }
      destruct (findUnique_cases o w1 (parseInt id))
        as [[e ->]|(n & -> & _ & ->)]; [by apply (well_owned_ext _ w1)|].
      change (table w1) with (table w).
      destruct (table w !! n) as [r|] eqn:Hn; cbn;
        [|by apply (well_owned_ext _ w1)].
      destruct (truthy (of_column (row_image r))) eqn:Himg.
      * apply truthy_column in Himg as (old & Hold & Hne).
        rewrite Hold, when_image_truthy by done.
        rewrite deleteLocalFile_ok by done. cbn.
        erewrite update_ok by (done || apply Hn).
        unfold with_table, with_blobs, logged, set_row. cbn.
        match goal with
        | |- well_owned _ (mkWorld ?t ?i (delete ?k ?b) ?cs) =>
            pose proof (well_owned_drop strip_leading_slash (mkWorld t i b cs)
                          k i cs (Hstore f n cs eq_refl)) as Hdrop
        end.
        cbn in Hdrop. apply Hdrop.
        intros m r' ref' Hm Hr' Hne' E.
        destruct Hown as [Hl He].
        apply lookup_insert_Some in Hm as [[<- <-]|[Hnm Hm]].
        -- cbn in Hr'. injection Hr' as <-.
           destruct (Hl n r old Hn Hold Hne) as [b Hb].
           assert (blobs w !! strip_leading_slash old = None)
             by (rewrite <- E; apply (Hfresh f eq_refl)).
           congruence.
        -- apply Hnm. by apply (He n m r r' old ref').
      * rewrite when_image_falsy by done. cbn.
        erewrite update_ok by (done || apply Hn).
        eapply well_owned_ext; [| |apply (Hstore f n [] eq_refl)];
          reflexivity.
    + cbn.
      destruct (findUnique_cases o w (parseInt id))
        as [[e ->]|(n & -> & _ & ->)]; [by apply (well_owned_ext _ w)|].
      destruct (table w !! n) as [r|] eqn:Hn; cbn;
        [|by apply (well_owned_ext _ w)].
      erewrite update_ok by (done || apply Hn).
      unfold with_table, logged, set_row. cbn. rewrite write_column.
      by apply well_owned_keep.
  - unfold run, Local.delete_image, try_catch, bind.
    destruct (findUnique_cases o w (parseInt id))
      as [[e ->]|(n & -> & _ & ->)]; [by apply (well_owned_ext _ w)|].
    destruct (table w !! n) as [r|] eqn:Hn; cbn;
      [|by apply (well_owned_ext _ w)].
    destruct (well_owned_remove strip_leading_slash w n r (next_id w)
                ((calls w ++ [CallFindUnique (Some n)])
                 ++ [CallDelete (Some n)]) Hown Hn) as [Hplain _].
    destruct (truthy (of_column (row_image r))) eqn:Himg.
    + apply truthy_column in Himg as (ref & Href & Hne).
      rewrite Href, when_image_truthy by done.
      rewrite deleteLocalFile_ok by done. cbn.
      erewrite delete_row_ok by (done || apply Hn). cbn.
      by apply (well_owned_remove strip_leading_slash w n r).
    + rewrite when_image_falsy by done. cbn.
      erewrite delete_row_ok by (done || apply Hn). cbn. apply Hplain.
Qed.
End OwnershipOnDisk.

(** ** References that are not URLs of the bucket *)

Lemma remove_first_absent (pat s : string) :
  occurs pat s = false -> remove_first pat s = s.
Proof.
  induction s as [|a s IH]; intros H; rewrite remove_first_eq.
  - cbn [occurs] in H. apply orb_false_elim in H as [Hp _].
    by rewrite Hp.
  - cbn [occurs] in H. apply orb_false_elim in H as [Hp H].
    by rewrite Hp, IH.
Qed.

(** X19. [deleteFromSupabase] on a reference that does not contain the public
    prefix of the bucket (a seeded image, a path of the other server) asks
    the bucket to remove the whole reference as a key: when no blob has
    that key the call succeeds and the bucket is unchanged. *)
Theorem foreign_reference_is_removed_verbatim {F} (url ref : string)
    (o : Oracle) (w : World (Row F)) :
  occurs (Supabase.public_prefix url) ref = false ->
  del_fails o = false ->
  Supabase.deleteFromSupabase url ref o w
  = (with_blobs (delete ref (blobs w)) (logged w [CallRemove ref]), inr tt)
  /\ (blobs w !! ref = None ->
      Supabase.deleteFromSupabase url ref o w
      = (logged w [CallRemove ref], inr tt)).
Proof.
  intros Hocc Hd. rewrite deleteFromSupabase_ok by done.
  rewrite remove_first_absent by done. split; [done|].
  intros Habs. unfold with_blobs. cbn. by rewrite delete_id.
Qed.

(** ** Repeating an update *)

Section Idempotence.
Context {F : Type}.
Implicit Types (o : Oracle) (w : World (Row F)) (fields : F).

(** X20. An update without a file is idempotent: sending the same request a
    second time leaves the table and the blobs as the first one left
    them. *)
Theorem update_without_file_is_idempotent
    not_found failed id n r fields o1 o2 w :
  parseInt id = Some n ->
  find_fails o1 = false -> write_fails o1 = false ->
  find_fails o2 = false -> write_fails o2 = false ->
  table w !! n = Some r ->
  let h := Local.route None (Local.put_image not_found failed id fields) in
  let w1 := (run h o1 w).1 in
  let w2 := (run h o2 w1).1 in
  table w1 = <[n := mkRow fields (row_image r)]> (table w)
  /\ table w2 = table w1
  /\ blobs w2 = blobs w
  /\ (run h o2 w1).2 = (run h o1 w).2.
Proof.
  intros Hid Hf1 Hw1 Hf2 Hw2 Hn h w1 w2.
  assert (Hrun : forall o w0 r0,
             find_fails o = false -> write_fails o = false ->
             table w0 !! n = Some r0 ->
             run h o w0
             = (with_table (<[n := mkRow fields (row_image r0)]> (table w0))
                  (logged w0 [CallFindUnique (Some n); CallUpdate (Some n)]),
                Sent (json (JsonRecord n (mkRow fields (row_image r0)))))).
  { intros o w0 r0 Hf Hw H0. unfold h. rewrite route_without_part.
    unfold run, Local.put_image, try_catch, bind.
    rewrite Hid, findUnique_ok by done. cbn. rewrite H0. cbn.
    erewrite update_ok by (done || apply H0). cbn.
    unfold set_row. rewrite write_column. f_equal. world_eq. }
  subst w2 w1. rewrite (Hrun o1 w r Hf1 Hw1 Hn). cbn [fst snd].
  rewrite (Hrun o2 _ (mkRow fields (row_image r)) Hf2 Hw2)
    by apply lookup_insert_eq.
  cbn. by rewrite insert_insert_eq.
Qed.
End Idempotence.

(** ** A create whose row is rejected *)

Section RejectedCreate.
Context {F : Type}.
Implicit Types (o : Oracle) (w : World (Row F)) (fields : F) (f : Upload).
Variable SUPABASE_URL : string.

Lemma create_rejected o w (data : Row F) :
  write_fails o = true ->
  create data o w = (logged w [CallCreate], inl PrismaFailure).
Proof. intros Hw. unfold create, bind, record, ask, get. cbn. by rewrite Hw. Qed.

(** X21. When the database rejects the row of a create that came with a file,
    the file is already stored and nothing takes it back: the blob stays
    although no row refers to it.  The news routes of both servers answer
    500; the sejarah route of [index.js] has no [try], so there the error
    escapes. *)
Theorem rejected_create_orphans_upload failed fields f o w :
  put_fails o = false ->
  write_fails o = true ->
  let name := stamped (clock o) (originalname f) in
  let path := "uploads/" ++ name in
  let on_disk :=
    mkWorld (table w) (next_id w) (<[path := buffer f]> (blobs w))
      (calls w ++ [CallWriteFile path; CallCreate]) in
  let answer :=
    Sent (mkResponse 500 (JsonError failed (Some PrismaFailure))) in
  run (Local.route (Some f) (Local.post_image failed fields)) o w
  = (on_disk, answer)
  /\ run (Local.route (Some f) (Local.post_sejarah fields)) o w
     = (on_disk, Escaped PrismaFailure)
  /\ (blobs w !! name = None ->
      run (Supabase.post_image SUPABASE_URL failed fields (Some f)) o w
      = (mkWorld (table w) (next_id w) (<[name := buffer f]> (blobs w))
           (calls w ++ [CallUpload name; CallCreate]),
         answer)).
Proof.
  intros Hp Hw name path on_disk answer. split; [|split].
  - unfold run, Local.route, Local.post_image, try_catch, bind.
    rewrite (upload_single_ok o w f Hp). cbn.
    rewrite create_rejected by done. cbn. f_equal. world_eq.
  - unfold run, Local.route, Local.post_sejarah, bind.
    rewrite (upload_single_ok o w f Hp). cbn.
    rewrite create_rejected by done. cbn. f_equal. world_eq.
  - intros Hk. unfold run, Supabase.post_image, try_catch, bind.
    rewrite (uploadToSupabase_ok SUPABASE_URL o w f Hp Hk). cbn.
    rewrite create_rejected by done. cbn. f_equal. world_eq.
Qed.
End RejectedCreate.

(** ** Ids that are not numbers *)

Section UnparsableId.
Context {F : Type}.
Implicit Types (o : Oracle) (w : World (Row F)).
Variable SUPABASE_URL : string.

Lemma findUnique_nan {R} o (w : World R) :
  findUnique None o w = (logged w [CallFindUnique None], inl PrismaFailure).
Proof.
  unfold findUnique, bind, record, ask, get, throw. cbn.
  by destruct (find_fails o).
Qed.

Lemma delete_row_nan {R} o (w : World R) :
  delete_row None o w = (logged w [CallDelete None], inl PrismaFailure).
Proof.
  unfold delete_row, bind, record, ask, get, throw. cbn.
  by destruct (write_fails o).
Qed.

(** X22. An id that [parseInt] reads as [NaN] is checked by one route only:
    the delete of strukturOrganisasi in the object-store server answers
    400 without calling the database.  Every other route passes [NaN] on:
    the delete of staffAndTeacher answers 500, the delete of contacts 404,
    the guarded routes of news 500 with the error, and the read by id has
    no [try], so the rejection escapes. *)
Theorem unparsable_id_answers not_found failed (id : string) o w :
  parseInt id = None ->
  run (Supabase.delete_strukturOrganisasi id) o w
  = (w, Sent (mkResponse 400 (JsonError "Invalid ID" None)))
  /\ run (Supabase.delete_staffandteachers id) o w
     = (logged w [CallDelete None],
        Sent (mkResponse 500
                (JsonError "Failed to delete staff or teacher" None)))
  /\ run (delete_contact id) o w
     = (logged w [CallDelete None],
        Sent (mkResponse 404
                (JsonError "Contact not found or failed to delete" None)))
  /\ run (Supabase.delete_image SUPABASE_URL not_found failed id) o w
     = (logged w [CallFindUnique None],
        Sent (mkResponse 500 (JsonError failed (Some PrismaFailure))))
  /\ run (Local.delete_image not_found failed id) o w
     = (logged w [CallFindUnique None],
        Sent (mkResponse 500 (JsonError failed (Some PrismaFailure))))
  /\ run (get_by_id id) o w
     = (logged w [CallFindUnique None], Escaped PrismaFailure).
Proof.
  intros Hid.
  unfold run, Supabase.delete_strukturOrganisasi,
    Supabase.delete_staffandteachers, delete_contact, Supabase.delete_image,
    Local.delete_image, get_by_id, try_catch, bind.
  by rewrite Hid, findUnique_nan, delete_row_nan.
Qed.
End UnparsableId.

(** ** Routes that never reach the bucket *)

Section RowOnly.
Context {F : Type}.
Implicit Types (o : Oracle) (w : World (Row F)) (fields : F).

Lemma blobs_delete_row o w id : blobs (delete_row id o w).1 = blobs w.
Proof.
  destruct (delete_row_cases o w id) as [[e ->]|(n & r & -> & Hn & Hf)];
    [done|].
  by rewrite (delete_row_ok o w n r Hf Hn).
Qed.

(** X23. In the object-store server the update and delete routes of
    strukturOrganisasi and the delete route of staffAndTeacher write rows
    only: whatever the request, the bucket is as before.  A delete that
    the database accepts removes the row and leaves the blob its image
    referred to. *)
Theorem person_routes_leave_bucket id fields (file : option Upload) o w :
  blobs (run (Supabase.put_strukturOrganisasi id fields file) o w).1 = blobs w
  /\ blobs (run (Supabase.delete_strukturOrganisasi id) o w).1 = blobs w
  /\ blobs (run (Supabase.delete_staffandteachers id) o w).1 = blobs w
  /\ (forall n (r : Row F),
        parseInt id = Some n -> table w !! n = Some r ->
        write_fails o = false ->
        let removed :=
          (mkWorld (delete n (table w)) (next_id w) (blobs w)
             (calls w ++ [CallDelete (Some n)]),
           Sent (mkResponse 204 NoBody)) in
        run (Supabase.delete_strukturOrganisasi id) o w = removed
        /\ run (Supabase.delete_staffandteachers id) o w = removed).
Proof.
  unfold run, Supabase.put_strukturOrganisasi,
    Supabase.delete_strukturOrganisasi, Supabase.delete_staffandteachers,
    try_catch, bind.
  split; [|split; [|split]].
  - match goal with
    | |- context [update ?i ?d o w] =>
        pose proof (blobs_update o w i d) as Hb;
        destruct (update i d o w) as [? [?|?]]
    end; done.
  - destruct (parseInt id) as [n|]; [|done].
    pose proof (blobs_delete_row o w (Some n)) as Hb.
    destruct (delete_row (Some n) o w) as [? [?|?]]; done.
  - pose proof (blobs_delete_row o w (parseInt id)) as Hb.
    destruct (delete_row (parseInt id) o w) as [? [?|?]]; done.
  - intros n r Hid Hn Hw.
    by rewrite Hid, (delete_row_ok o w n r Hw Hn).
Qed.
End RowOnly.

(** ** The further properties at concrete requests *)

Lemma first_image_needs_no_deletion_witness :
  run (Supabase.put_news project_url "1" news1' (Some photo))
    (calm 1736400000000) plain_world
  = (mkWorld
       {[ 1 := mkRow news1'
                 (Some (Supabase.getPublicUrl project_url
                          "1736400000000-photo2.png")) ]} 2
       {[ "1736400000000-photo2.png" := buffer photo ]}
       [CallFindUnique (Some 1); CallUpload "1736400000000-photo2.png";
        CallUpdate (Some 1)],
     Sent (json (JsonRecord 1
                   (mkRow news1'
                      (Some (Supabase.getPublicUrl project_url
                               "1736400000000-photo2.png")))))).
Proof.
  destruct (first_image_needs_no_deletion project_url
              "News not found" "Failed to update news" "1" 1
              (mkRow news1' None) news1' photo (calm 1736400000000)
              plain_world eq_refl eq_refl eq_refl eq_refl eq_refl eq_refl
              ltac:(by vm_compute)) as (_ & H).
  etransitivity; [exact H|]. by vm_compute.
Defined.

Lemma delete_without_image_skips_store_witness :
  run (Local.delete_news "1") (calm 1736400000000) plain_world
  = (mkWorld ∅ 2 ∅ [CallFindUnique (Some 1); CallDelete (Some 1)],
     Sent (mkResponse 204 NoBody)).
Proof.
  destruct (delete_without_image_skips_store project_url
              "News not found" "Failed to delete news" "1" 1
              (mkRow news1' None) (calm 1736400000000) plain_world
              eq_refl eq_refl eq_refl eq_refl eq_refl) as (H & _).
  etransitivity; [exact H|]. by vm_compute.
Defined.

Lemma sejarah_errors_escape_witness :
  Local.delete_sejarah "1" (mkOracle 1736400000000 false false false true)
    local_world
  = (logged local_world
       [CallFindUnique (Some 1); CallUnlink "uploads/1736300000000-photo.png"],
     inl (JsError "Failed to delete local file")).
Proof.
  destruct (sejarah_errors_escape "1" 1 news1
              "/uploads/1736300000000-photo.png" news1' photo
              (mkOracle 1736400000000 false false false true) local_world
              eq_refl eq_refl eq_refl eq_refl eq_refl eq_refl
              ltac:(discriminate)) as (_ & H).
  exact H.
Defined.

Lemma create_with_file_stores_no_blob_witness :
  run (Supabase.post_staffandteachers siti (Some photo)) (calm 1736400000000)
    staff_world
  = (mkWorld (<[2 := mkRow siti (Some "/uploads/undefined")]> (table staff_world))
       3 ∅ [CallCreate],
     Sent (mkResponse 201 (JsonRecord 2 (mkRow siti (Some "/uploads/undefined"))))).
Proof.
  destruct (create_with_file_stores_no_blob siti (Some photo) photo
              (calm 1736400000000) staff_world) as (_ & _ & H).
  destruct (H eq_refl eq_refl) as (_ & H2). exact H2.
Defined.

Lemma post_announcement_validates_witness :
  run (Supabase.post_announcement ten_characters notice) (calm 1736400000000)
    no_announcements
  = (mkWorld {[ 1 := mkAnnouncement "Libur" "Sekolah libur" "2025-01-10" ]} 2 ∅
       [CallCreate],
     Sent (json (JsonRecord 1
                   (mkAnnouncement "Libur" "Sekolah libur" "2025-01-10")))).
Proof.
  destruct (post_announcement_validates ten_characters notice
              (calm 1736400000000) no_announcements) as (_ & H).
  etransitivity; [exact (H eq_refl eq_refl ltac:(by vm_compute))|].
  by vm_compute.
Defined.

Lemma put_announcement_unparsed_date_witness :
  run (Supabase.put_announcement ten_characters "1" vague_notice)
    (calm 1736400000000) one_announcement
  = (logged one_announcement [CallUpdate (Some 1)],
     Sent (mkResponse 500 (JsonError "Error updating announcement" None)))
  /\ run (Supabase.put_announcement ten_characters "1" notice)
       (calm 1736400000000) one_announcement
     = (mkWorld {[ 1 := mkAnnouncement "Libur" "Sekolah libur" "2025-01-10" ]}
          2 ∅ [CallUpdate (Some 1)],
        Sent (json (JsonRecord 1
                      (mkAnnouncement "Libur" "Sekolah libur" "2025-01-10")))).
Proof.
  destruct (put_announcement_unparsed_date ten_characters "1" vague_notice
              (calm 1736400000000) one_announcement
              eq_refl eq_refl eq_refl eq_refl) as (H & _).
  split; [exact H|by vm_compute].
Defined.

Lemma authenticateToken_reads_second_word_witness :
  Auth.authenticateToken one_good_token (Some "Basic good and more") 0
  = Auth.authenticateToken one_good_token (Some "Bearer good") 0.
Proof.
  exact (authenticateToken_reads_second_word one_good_token
           "Basic" "good" " and more" 0 eq_refl eq_refl
           (or_intror (ex_intro _ "and more" eq_refl))).
Defined.

Lemma bucket_world_owned :
  well_owned (remove_first (Supabase.public_prefix project_url))
    (bucket_world news1').
Proof.
  split.
  - intros n r ref Hn Hr _. cbn in Hn.
    apply lookup_singleton_Some in Hn as [<- <-]. cbn in Hr.
    injection Hr as <-. eexists. by vm_compute.
  - intros n m r r' ref ref' Hn Hm _ _ _ _ _. cbn in Hn, Hm.
    apply lookup_singleton_Some in Hn as [<- _].
    by apply lookup_singleton_Some in Hm as [<- _].
Qed.

Lemma local_world_owned : well_owned strip_leading_slash local_world.
Proof.
  split.
  - intros n r ref Hn Hr _. cbn in Hn.
    apply lookup_singleton_Some in Hn as [<- <-]. cbn in Hr.
    injection Hr as <-. eexists. by vm_compute.
  - intros n m r r' ref ref' Hn Hm _ _ _ _ _. cbn in Hn, Hm.
    apply lookup_singleton_Some in Hn as [<- _].
    by apply lookup_singleton_Some in Hm as [<- _].
Qed.

Lemma accepted_requests_keep_ownership_witness :
  well_owned (remove_first (Supabase.public_prefix project_url))
    (run (Supabase.put_news project_url "1" news1' (Some photo))
       (calm 1736400000000) (bucket_world news1')).1.
Proof.
  destruct (accepted_requests_keep_ownership project_url
              "News not found" "Failed to update news" "1" news1'
              (Some photo) (calm 1736400000000) (bucket_world news1')
              eq_refl ltac:(by intros f [= <-])
              eq_refl eq_refl eq_refl eq_refl ltac:(by vm_compute)
              ltac:(by intros f [= <-]; vm_compute) bucket_world_owned)
    as (_ & H & _).
  exact H.
Defined.

Lemma accepted_requests_keep_files_owned_witness :
  well_owned strip_leading_slash
    (run (Local.route (Some photo) (Local.put_news "1" news1'))
       (calm 1736400000000) local_world).1.
Proof.
  destruct (accepted_requests_keep_files_owned
              "News not found" "Failed to update news" "1" news1'
              (Some photo) (calm 1736400000000) local_world
              eq_refl eq_refl eq_refl eq_refl ltac:(by vm_compute)
              ltac:(by intros f [= <-]; vm_compute) local_world_owned)
    as (_ & H & _).
  exact H.
Defined.

Lemma foreign_reference_is_removed_verbatim_witness :
  Supabase.deleteFromSupabase project_url "hero_image_url_1"
    (calm 1736400000000) seeded_world
  = (logged seeded_world [CallRemove "hero_image_url_1"], inr tt).
Proof.
  destruct (foreign_reference_is_removed_verbatim project_url
              "hero_image_url_1" (calm 1736400000000) seeded_world
              ltac:(by vm_compute) eq_refl) as (_ & H).
  exact (H ltac:(by vm_compute)).
Defined.

Lemma update_without_file_is_idempotent_witness :
  table
    (run (Local.route None (Local.put_news "1" news1')) (calm 1736400000001)
       (run (Local.route None (Local.put_news "1" news1'))
          (calm 1736400000000) local_world).1).1
  = table
      (run (Local.route None (Local.put_news "1" news1'))
         (calm 1736400000000) local_world).1.
Proof.
  destruct (update_without_file_is_idempotent
              "News not found" "Failed to update news" "1" 1 news1 news1'
              (calm 1736400000000) (calm 1736400000001) local_world
              eq_refl eq_refl eq_refl eq_refl eq_refl eq_refl)
    as (_ & H & _).
  exact H.
Defined.

Lemma guarded_routes_answer_404_witness :
  run (Local.delete_news "7") (calm 1736400000000) local_world
  = (logged local_world [CallFindUnique (Some 7)],
     Sent (mkResponse 404 (JsonError "News not found" None))).
Proof.
  destruct (guarded_routes_answer_404 project_url
              "News not found" "Failed to delete news" "7" 7 news1'
              None None (calm 1736400000000) local_world
              eq_refl eq_refl ltac:(by vm_compute)) as (_ & H & _).
  exact H.
Defined.

Lemma local_404_leaves_upload_witness :
  run (Local.route (Some photo) (Local.put_news "7" news1'))
    (calm 1736400000000) local_world
  = (mkWorld (table local_world) 2
       (<["uploads/1736400000000-photo2.png" := buffer photo]>
          (blobs local_world))
       [CallWriteFile "uploads/1736400000000-photo2.png";
        CallFindUnique (Some 7)],
     Sent (mkResponse 404 (JsonError "News not found" None))).
Proof.
  exact (local_404_leaves_upload "News not found" "Failed to update news"
           "7" 7 news1' photo (calm 1736400000000) local_world
           eq_refl eq_refl eq_refl ltac:(by vm_compute)).
Defined.

Lemma unguarded_delete_is_500_witness :
  run (Supabase.delete_staffandteachers "7") (calm 1736400000000) staff_world
  = (logged staff_world [CallDelete (Some 7)],
     Sent (mkResponse 500
             (JsonError "Failed to delete staff or teacher" None))).
Proof.
  exact (unguarded_delete_is_500 "7" 7 (calm 1736400000000) staff_world
           eq_refl eq_refl ltac:(by vm_compute)).
Defined.

Lemma rejected_create_orphans_upload_witness :
  run (Local.route (Some photo) (Local.post_news news1'))
    (mkOracle 1736400000000 false true false false) local_world
  = (mkWorld (table local_world) 2
       (<["uploads/1736400000000-photo2.png" := buffer photo]>
          (blobs local_world))
       [CallWriteFile "uploads/1736400000000-photo2.png"; CallCreate],
     Sent (mkResponse 500
             (JsonError "Failed to create news" (Some PrismaFailure)))).
Proof.
  destruct (rejected_create_orphans_upload project_url
              "Failed to create news" news1' photo
              (mkOracle 1736400000000 false true false false) local_world
              eq_refl eq_refl) as (H & _).
  exact H.
Defined.

Lemma unparsable_id_answers_witness :
  run (Supabase.delete_strukturOrganisasi "abc") (calm 1736400000000)
    staff_world
  = (staff_world, Sent (mkResponse 400 (JsonError "Invalid ID" None)))
  /\ run (get_by_id "abc") (calm 1736400000000) staff_world
     = (logged staff_world [CallFindUnique None], Escaped PrismaFailure).
Proof.
  destruct (unparsable_id_answers project_url "Staff not found"
              "Failed to delete staff or teacher" "abc"
              (calm 1736400000000) staff_world eq_refl)
    as (H1 & _ & _ & _ & _ & H2).
  split; [exact H1|exact H2].
Defined.

Lemma person_routes_leave_bucket_witness :
  run (Supabase.delete_staffandteachers "1") (calm 1736400000000)
    (bucket_world siti)
  = (mkWorld ∅ 2 {[ "1736300000000-photo.png" := [Byte.x01; Byte.x02] ]}
       [CallDelete (Some 1)],
     Sent (mkResponse 204 NoBody))
  /\ row_image <$> table (bucket_world siti) !! 1
     = Some (Some (Supabase.getPublicUrl project_url
                     "1736300000000-photo.png")).
Proof.
  destruct (person_routes_leave_bucket "1" siti None (calm 1736400000000)
              (bucket_world siti)) as (_ & _ & _ & H).
  destruct (H 1 _ eq_refl eq_refl eq_refl) as (_ & H2).
  split; [|by vm_compute].
  etransitivity; [exact H2|]. by vm_compute.
Defined.

Lemma delete_contact_answers_200_or_404_witness :
  run (delete_contact "1") (calm 1736400000000) inbox
  = (mkWorld ∅ 2 ∅ [CallDelete (Some 1)],
     Sent (json (JsonRecord 1
                   (mkContact "Budi" "budi@example.com" "0812" "Halo"))))
  /\ run (delete_contact "7") (calm 1736400000000) inbox
     = (logged inbox [CallDelete (Some 7)],
        Sent (mkResponse 404
                (JsonError "Contact not found or failed to delete" None))).
Proof.
  split.
  - destruct (delete_contact_answers_200_or_404 "1" (calm 1736400000000)
                inbox) as (H & _).
    etransitivity; [exact (H 1 _ eq_refl eq_refl eq_refl)|]. by vm_compute.
  - destruct (delete_contact_answers_200_or_404 "7" (calm 1736400000000)
                inbox) as (_ & H).
    apply H. right. right. exists 7. split; [reflexivity|by vm_compute].
Defined.
